(** * OBD-II ignition detection and diagnostic polling of the vehicle interface

    A shallow embedding of [src/obd2.cpp] (namespace [openxc::diagnostics::obd2])
    and of [serialize] from [src/payload/protobuf.cpp], followed by the
    properties of the polling state machine, the ignition detector, the
    supported-PID discovery and the wire codec boundary.

    Conventions.
    - C integers are [Z]; the one narrowing conversion of the code
      ([uint16_t pid = ...] in [checkSupportedPids]) is written out as a
      reduction modulo [2^16].
    - The file-level statics ([ENGINE_STARTED], [VEHICLE_IN_MOTION],
      [IGNITION_STATUS_TIMER]), the function-level statics of [loop], the
      manager reached through the [DiagnosticsManager*] argument and the
      configuration returned by [getConfiguration()] are the fields of one
      [State] record that every operation threads explicitly.
    - The system time read by [time::tick] and [time::elapsed] is the [now]
      argument (milliseconds) of the operation that reads it.
    - Decoded payload values ([float] in the source) are rationals; the
      decoder itself belongs to the diagnostic library and is a section
      variable. *)

From Stdlib Require Import ZArith List Bool String QArith Lia.
Import ListNotations.
Local Open Scope Z_scope.

(** ** Constants *)

Definition ENGINE_SPEED_PID : Z := 0xc.
Definition VEHICLE_SPEED_PID : Z := 0xd.
Definition CHAR_BIT : Z := 8.

(** The functional broadcast arbitration id of the diagnostic library
    (its header is not part of the sources; the value is the OBD-II one). *)
Definition OBD2_FUNCTIONAL_BROADCAST_ID : Z := 0x7df.

(** ** Data model *)

(** A CAN bus is referred to by pointer in the source; a bus handle is enough
    here, and a [NULL] pointer is [None]. *)
Definition CanBus : Type := Z.

(** Modelled from the spec: the [PowerManagement] enumeration of [config.h] is
    not among the sources; the spec gives the configuration consumed as
    [power_management_mode] in {OTHER, IGNITION_CHECK}. *)
Inductive PowerManagement : Type :=
| OTHER_POWER_MANAGEMENT
| OBD2_IGNITION_CHECK.

Definition PowerManagement_eqb (a b : PowerManagement) : bool :=
  match a, b with
  | OTHER_POWER_MANAGEMENT, OTHER_POWER_MANAGEMENT => true
  | OBD2_IGNITION_CHECK, OBD2_IGNITION_CHECK => true
  | _, _ => false
  end.

Record Configuration : Type := {
  powerManagement : PowerManagement;
  recurringObd2Requests : bool
}.

(** [Obd2Pid]: one row of the PID registry. *)
Record Obd2Pid : Type := {
  obd2_pid : Z;
  obd2_name : string;
  obd2_frequency : Q
}.

Definition OBD2_PIDS : list Obd2Pid := [
  {| obd2_pid := ENGINE_SPEED_PID; obd2_name := "engine_speed"; obd2_frequency := 5 |};
  {| obd2_pid := VEHICLE_SPEED_PID; obd2_name := "vehicle_speed"; obd2_frequency := 5 |};
  {| obd2_pid := 0x4; obd2_name := "engine_load"; obd2_frequency := 5 |};
  {| obd2_pid := 0x33; obd2_name := "barometric_pressure"; obd2_frequency := 1 |};
  {| obd2_pid := 0x4c; obd2_name := "commanded_throttle_position"; obd2_frequency := 1 |};
  {| obd2_pid := 0x5; obd2_name := "engine_coolant_temperature"; obd2_frequency := 1 |};
  {| obd2_pid := 0x27; obd2_name := "fuel_level"; obd2_frequency := 1 |};
  {| obd2_pid := 0xf; obd2_name := "intake_air_temperature"; obd2_frequency := 1 |};
  {| obd2_pid := 0xb; obd2_name := "intake_manifold_pressure"; obd2_frequency := 1 |};
  {| obd2_pid := 0x1f; obd2_name := "running_time"; obd2_frequency := 1 |};
  {| obd2_pid := 0x11; obd2_name := "throttle_position"; obd2_frequency := 5 |};
  {| obd2_pid := 0xa; obd2_name := "fuel_pressure"; obd2_frequency := 1 |};
  {| obd2_pid := 0x66; obd2_name := "mass_airflow"; obd2_frequency := 5 |};
  {| obd2_pid := 0x5a; obd2_name := "accelerator_pedal_position"; obd2_frequency := 5 |};
  {| obd2_pid := 0x52; obd2_name := "ethanol_fuel_percentage"; obd2_frequency := 1 |};
  {| obd2_pid := 0x5c; obd2_name := "engine_oil_temperature"; obd2_frequency := 1 |};
  {| obd2_pid := 0x63; obd2_name := "engine_torque"; obd2_frequency := 1 |}
].

(** [DiagnosticRequest] as the source builds it with designated initialisers. *)
Record DiagnosticRequest : Type := {
  arbitration_id : Z;
  mode : Z;
  has_pid : bool;
  pid : Z
}.

(** [DiagnosticResponse]: the fields the core reads.  [payload] holds the
    first [payload_length] bytes of the C array. *)
Record DiagnosticResponse : Type := {
  response_pid : Z;
  payload : list Z
}.

Definition payload_length (r : DiagnosticResponse) : Z :=
  Z.of_nat (List.length (payload r)).

(** The function pointers handed to the scheduler form a closed set. *)
Inductive DiagnosticResponseDecoder : Type :=
| handleObd2Pid.

Inductive DiagnosticResponseCallback : Type :=
| CheckIgnitionStatus
| CheckSupportedPids.

(** Modelled from the spec: the scheduler ([DiagnosticsManager], [addRequest],
    [addRecurringRequest], [reset]) is declared in a header that is not among
    the sources.  The spec gives [manager.initialized], [manager.obd2_bus],
    registration of one-shot and of recurring requests with their handlers,
    and a reset that cancels every outstanding request and clears the
    initialization state.  A registration is recorded as one entry, in order
    of issue; the positional arguments that are the same at every call site
    of the core ([false, false, 1, 0]) are not recorded. *)
Record ActiveDiagnosticRequest : Type := {
  request_bus : option CanBus;
  request : DiagnosticRequest;
  request_name : option string;
  request_decoder : option DiagnosticResponseDecoder;
  request_callback : option DiagnosticResponseCallback;
  frequencyHz : option Q
}.

Definition recurring (r : ActiveDiagnosticRequest) : bool :=
  match frequencyHz r with
  | Some _ => true
  | None => false
  end.

Record DiagnosticsManager : Type := {
  obd2Bus : option CanBus;
  initialized : bool;
  requests : list ActiveDiagnosticRequest
}.

(** Modelled from the spec: a registration with the scheduler, kept in order
    of issue. *)
Definition register (m : DiagnosticsManager) (r : ActiveDiagnosticRequest)
  : DiagnosticsManager :=
  {| obd2Bus := obd2Bus m;
     initialized := initialized m;
     requests := requests m ++ [r] |}.

(** Modelled from the spec: [add_request] registers a one-shot request with a
    response callback. *)
Definition addRequest (m : DiagnosticsManager) (bus : option CanBus)
    (rq : DiagnosticRequest) (name : option string)
    (decoder : option DiagnosticResponseDecoder)
    (callback : option DiagnosticResponseCallback) : DiagnosticsManager :=
  register m {| request_bus := bus; request := rq; request_name := name;
                request_decoder := decoder; request_callback := callback;
                frequencyHz := None |}.

(** Modelled from the spec: [add_recurring_request] registers a recurring
    request with its frequency, normal handler and auxiliary handler. *)
Definition addRecurringRequest (m : DiagnosticsManager) (bus : option CanBus)
    (rq : DiagnosticRequest) (name : option string)
    (decoder : option DiagnosticResponseDecoder)
    (callback : option DiagnosticResponseCallback) (frequency : Q)
  : DiagnosticsManager :=
  register m {| request_bus := bus; request := rq; request_name := name;
                request_decoder := decoder; request_callback := callback;
                frequencyHz := Some frequency |}.

(** Modelled from the spec: [reset] cancels all outstanding requests and
    clears the initialization state. *)
Definition reset (m : DiagnosticsManager) : DiagnosticsManager :=
  {| obd2Bus := obd2Bus m; initialized := false; requests := [] |}.

(** [manager->initialized = b]. *)
Definition set_initialized (m : DiagnosticsManager) (b : bool)
  : DiagnosticsManager :=
  {| obd2Bus := obd2Bus m; initialized := b; requests := requests m |}.

(** Modelled from the spec: [FrequencyClock], [time::tick] and [time::elapsed]
    live in [util/timer.h], which is not among the sources.  The spec gives a
    periodic clock with two operations: [tick] resets the last-activity
    instant to now, and [elapsed] is true iff the period has passed since the
    last tick, without consuming or resetting it.  The period is the inverse
    of the frequency the source initialises the clock with (0.2 Hz, five
    seconds), in milliseconds. *)
Record FrequencyClock : Type := {
  frequency : Q;
  lastTick : Z
}.

(** Modelled from the spec: the clock's period, in milliseconds. *)
Definition period_ms (c : FrequencyClock) : Q := (1000 / frequency c)%Q.

(** Modelled from the spec: [tick] resets the last-activity instant to now. *)
Definition tick (c : FrequencyClock) (now : Z) : FrequencyClock :=
  {| frequency := frequency c; lastTick := now |}.

(** Modelled from the spec: [elapsed] is true iff the period has passed since
    the last tick; it changes nothing. *)
Definition elapsed (c : FrequencyClock) (now : Z) : bool :=
  Qle_bool (period_ms c) (inject_Z (now - lastTick c)).

(** The process-wide state of the core. *)
Record State : Type := {
  ENGINE_STARTED : bool;
  VEHICLE_IN_MOTION : bool;
  IGNITION_STATUS_TIMER : FrequencyClock;
  ignitionWasOn : bool;
  pidSupportQueried : bool;
  sentFinalIgnitionCheck : bool;
  manager : DiagnosticsManager;
  configuration : Configuration
}.

Definition set_ENGINE_STARTED (st : State) (b : bool) : State :=
  {| ENGINE_STARTED := b;
     VEHICLE_IN_MOTION := VEHICLE_IN_MOTION st;
     IGNITION_STATUS_TIMER := IGNITION_STATUS_TIMER st;
     ignitionWasOn := ignitionWasOn st;
     pidSupportQueried := pidSupportQueried st;
     sentFinalIgnitionCheck := sentFinalIgnitionCheck st;
     manager := manager st;
     configuration := configuration st |}.

Definition set_VEHICLE_IN_MOTION (st : State) (b : bool) : State :=
  {| ENGINE_STARTED := ENGINE_STARTED st;
     VEHICLE_IN_MOTION := b;
     IGNITION_STATUS_TIMER := IGNITION_STATUS_TIMER st;
     ignitionWasOn := ignitionWasOn st;
     pidSupportQueried := pidSupportQueried st;
     sentFinalIgnitionCheck := sentFinalIgnitionCheck st;
     manager := manager st;
     configuration := configuration st |}.

Definition set_IGNITION_STATUS_TIMER (st : State) (c : FrequencyClock) : State :=
  {| ENGINE_STARTED := ENGINE_STARTED st;
     VEHICLE_IN_MOTION := VEHICLE_IN_MOTION st;
     IGNITION_STATUS_TIMER := c;
     ignitionWasOn := ignitionWasOn st;
     pidSupportQueried := pidSupportQueried st;
     sentFinalIgnitionCheck := sentFinalIgnitionCheck st;
     manager := manager st;
     configuration := configuration st |}.

Definition set_manager (st : State) (m : DiagnosticsManager) : State :=
  {| ENGINE_STARTED := ENGINE_STARTED st;
     VEHICLE_IN_MOTION := VEHICLE_IN_MOTION st;
     IGNITION_STATUS_TIMER := IGNITION_STATUS_TIMER st;
     ignitionWasOn := ignitionWasOn st;
     pidSupportQueried := pidSupportQueried st;
     sentFinalIgnitionCheck := sentFinalIgnitionCheck st;
     manager := m;
     configuration := configuration st |}.

(** Assignment to the three function-level statics of [loop]. *)
Definition set_flags (st : State) (wasOn queried sentFinal : bool) : State :=
  {| ENGINE_STARTED := ENGINE_STARTED st;
     VEHICLE_IN_MOTION := VEHICLE_IN_MOTION st;
     IGNITION_STATUS_TIMER := IGNITION_STATUS_TIMER st;
     ignitionWasOn := wasOn;
     pidSupportQueried := queried;
     sentFinalIgnitionCheck := sentFinal;
     manager := manager st;
     configuration := configuration st |}.

(** [time::tick(&IGNITION_STATUS_TIMER)]. *)
Definition tick_timer (st : State) (now : Z) : State :=
  set_IGNITION_STATUS_TIMER st (tick (IGNITION_STATUS_TIMER st) now).

(** The request literal both the probe and the discovery build:
    broadcast arbitration id, mode 1, [has_pid], and the given PID. *)
Definition obd2_request (p : Z) : DiagnosticRequest :=
  {| arbitration_id := OBD2_FUNCTIONAL_BROADCAST_ID;
     mode := 0x1; has_pid := true; pid := p |}.

(** ** The core *)

Section Obd2.

(** [diagnostic_decode_obd2_pid] of the diagnostic library. *)
Variable diagnostic_decode_obd2_pid : DiagnosticResponse -> Q.

(** [checkIgnitionStatus]: the callback of every request for the two watched
    PIDs. *)
Definition checkIgnitionStatus (st : State) (response : DiagnosticResponse)
    (now : Z) : State :=
  let value := diagnostic_decode_obd2_pid response in
  let nonzero := negb (Qeq_bool value 0) in
  let '(st1, matched) :=
    if response_pid response =? ENGINE_SPEED_PID then
      (set_ENGINE_STARTED st nonzero, nonzero)
    else if response_pid response =? VEHICLE_SPEED_PID then
      (set_VEHICLE_IN_MOTION st nonzero, nonzero)
    else (st, false) in
  if matched then tick_timer st1 now else st1.

(** The condition that guards [requestIgnitionStatus]. *)
Definition ignition_guard (st : State) : bool :=
  match obd2Bus (manager st) with
  | Some _ =>
      PowerManagement_eqb (powerManagement (configuration st)) OBD2_IGNITION_CHECK
      || recurringObd2Requests (configuration st)
  | None => false
  end.

Definition requestIgnitionStatus (st : State) (now : Z) : State :=
  if ignition_guard st then
    let m := manager st in
    let m1 := addRequest m (obd2Bus m) (obd2_request ENGINE_SPEED_PID)
                (Some "engine_speed"%string) None (Some CheckIgnitionStatus) in
    let m2 := addRequest m1 (obd2Bus m1) (obd2_request VEHICLE_SPEED_PID)
                (Some "vehicle_speed"%string) None (Some CheckIgnitionStatus) in
    tick_timer (set_manager st m2) now
  else st.

(** The innermost loop of [checkSupportedPids]: the first registry row whose
    PID equals [p] is registered as a recurring request, and the scan stops. *)
Fixpoint register_supported (m : DiagnosticsManager) (p : Z)
    (table : list Obd2Pid) : DiagnosticsManager :=
  match table with
  | [] => m
  | row :: rest =>
      if obd2_pid row =? p then
        addRecurringRequest m (obd2Bus m) (obd2_request p)
          (Some (obd2_name row)) (Some handleObd2Pid)
          (Some CheckIgnitionStatus) (obd2_frequency row)
      else register_supported m p rest
  end.

(** The bit loop, [j] from [n - 1] down to [0], over byte [i] of the payload. *)
Fixpoint scan_bits (m : DiagnosticsManager) (base i byte : Z) (n : nat)
  : DiagnosticsManager :=
  match n with
  | O => m
  | S j' =>
      let j := Z.of_nat j' in
      let m1 :=
        if negb (Z.land (Z.shiftr byte j) 0x1 =? 0) then
          let p := (base + i * CHAR_BIT + j + 1) mod 2 ^ 16 in
          register_supported m p OBD2_PIDS
        else m in
      scan_bits m1 base i byte j'
  end.

(** The byte loop, [i] from its start to [payload_length - 1]. *)
Fixpoint scan_bytes (m : DiagnosticsManager) (base i : Z) (bytes : list Z)
  : DiagnosticsManager :=
  match bytes with
  | [] => m
  | byte :: rest =>
      scan_bytes (scan_bits m base i byte (Z.to_nat CHAR_BIT)) base (i + 1) rest
  end.

Definition checkSupportedPids (st : State) (response : DiagnosticResponse)
  : State :=
  match obd2Bus (manager st) with
  | None => st
  | Some _ =>
      if negb (recurringObd2Requests (configuration st)) then st
      else set_manager st
             (scan_bytes (manager st) (response_pid response) 0
                (payload response))
  end.

Definition initialize (st : State) (now : Z) : State :=
  requestIgnitionStatus st now.

(** The discovery loop of [loop]: [for (i = 0; i <= 0x80; i += 0x20)].
    [fuel] bounds the number of iterations. *)
Fixpoint query_supported (fuel : nat) (i : Z) (m : DiagnosticsManager)
    (bus : option CanBus) : DiagnosticsManager :=
  match fuel with
  | O => m
  | S fuel' =>
      if i <=? 0x80 then
        query_supported fuel' (i + 0x20)
          (addRequest m bus (obd2_request i) None None (Some CheckSupportedPids))
          bus
      else m
  end.

(** One more than the largest value the loop variable is tested at with
    success: always enough iterations. *)
Definition query_fuel : nat := Z.to_nat (0x80 + 1).

Definition loop (st : State) (bus : option CanBus) (now : Z) : State :=
  if negb (initialized (manager st)) then st
  else if elapsed (IGNITION_STATUS_TIMER st) now then
    if sentFinalIgnitionCheck st then
      let st1 :=
        if initialized (manager st)
           && PowerManagement_eqb (powerManagement (configuration st))
                OBD2_IGNITION_CHECK
        then set_manager st (set_initialized (reset (manager st)) false)
        else st in
      set_flags st1 false false (sentFinalIgnitionCheck st1)
    else
      let st1 := requestIgnitionStatus st now in
      set_flags st1 (ignitionWasOn st1) (pidSupportQueried st1) true
  else if negb (ignitionWasOn st)
          && (ENGINE_STARTED st || VEHICLE_IN_MOTION st) then
    let st1 := set_flags st true (pidSupportQueried st) false in
    if recurringObd2Requests (configuration st1)
       && negb (pidSupportQueried st1) then
      let st2 := set_flags st1 (ignitionWasOn st1) true
                   (sentFinalIgnitionCheck st1) in
      set_manager st2 (query_supported query_fuel 0x0 (manager st2) bus)
    else st1
  else st.

(** ** Runs of the core

    Between two ticks the scheduler delivers responses to the callbacks the
    core registered.  An event is one entry into the core. *)
Inductive Event : Type :=
| Initialize (now : Z)
| Loop (bus : option CanBus) (now : Z)
| Response (callback : DiagnosticResponseCallback)
    (response : DiagnosticResponse) (now : Z).

Definition step (st : State) (e : Event) : State :=
  match e with
  | Initialize now => initialize st now
  | Loop bus now => loop st bus now
  | Response CheckIgnitionStatus response now =>
      checkIgnitionStatus st response now
  | Response CheckSupportedPids response _ => checkSupportedPids st response
  end.

Definition run (st : State) (events : list Event) : State :=
  fold_left step events st.

End Obd2.

(** ** The wire codec boundary: [serialize] *)

(** The encoder library's output stream over a caller-supplied buffer. *)
Record pb_ostream_t : Type := {
  stream_buffer : list Z;
  max_size : Z;
  bytes_written : Z
}.

Definition pb_ostream_from_buffer (payload : list Z) (length : Z)
  : pb_ostream_t :=
  {| stream_buffer := payload; max_size := length; bytes_written := 0 |}.

(** [return stream.bytes_written;] converts a [size_t] to the [int] the
    function returns (both 32 bits wide on the targets of the firmware). *)
Definition int_of_size_t (n : Z) : Z :=
  let m := n mod 2 ^ 32 in
  if m <? 2 ^ 31 then m else m - 2 ^ 32.

Section Protobuf.

Variable openxc_VehicleMessage : Type.

(** [pb_encode_delimited] of the encoder library, with the schema fixed to
    [openxc_VehicleMessage_fields]: the stream after the call, and whether
    encoding succeeded. *)
Variable pb_encode_delimited :
  pb_ostream_t -> openxc_VehicleMessage -> bool * pb_ostream_t.

(** [serialize]: a [NULL] message is [None]; [debug] only logs.  The result is
    the returned length together with the payload buffer as the call left it. *)
Definition serialize (message : option openxc_VehicleMessage)
    (payload : list Z) (length : Z) : Z * list Z :=
  match message with
  | None => (0, payload)
  | Some m =>
      let stream := pb_ostream_from_buffer payload length in
      let '(_, stream1) := pb_encode_delimited stream m in
      (int_of_size_t (bytes_written stream1), stream_buffer stream1)
  end.

End Protobuf.

(** ** Specification-level definitions *)

(** The condition of the ignition probe, in the spec's words: a bus is
    configured and (the power-management mode is ignition-check or recurring
    polling is enabled). *)
Definition probe_condition (st : State) : Prop :=
  obd2Bus (manager st) <> None
  /\ (powerManagement (configuration st) = OBD2_IGNITION_CHECK
      \/ recurringObd2Requests (configuration st) = true).

(** The one-shot request the probe issues for PID [p] under label [name]. *)
Definition ignition_probe (bus : option CanBus) (p : Z) (name : string)
  : ActiveDiagnosticRequest :=
  {| request_bus := bus; request := obd2_request p;
     request_name := Some name; request_decoder := None;
     request_callback := Some CheckIgnitionStatus; frequencyHz := None |}.

(** The one-shot discovery request for base PID [p]. *)
Definition support_query (bus : option CanBus) (p : Z)
  : ActiveDiagnosticRequest :=
  {| request_bus := bus; request := obd2_request p;
     request_name := None; request_decoder := None;
     request_callback := Some CheckSupportedPids; frequencyHz := None |}.

(** The registry lookup of the spec: [find(pid)], a linear scan. *)
Definition find_pid (p : Z) : option Obd2Pid :=
  find (fun row => obd2_pid row =? p) OBD2_PIDS.

(** What discovering PID [p] registers: one recurring request at the
    descriptor's frequency when the registry knows [p], nothing otherwise. *)
Definition registration (bus : option CanBus) (p : Z)
  : list ActiveDiagnosticRequest :=
  match find_pid p with
  | Some row =>
      [ {| request_bus := bus; request := obd2_request p;
           request_name := Some (obd2_name row);
           request_decoder := Some handleObd2Pid;
           request_callback := Some CheckIgnitionStatus;
           frequencyHz := Some (obd2_frequency row) |} ]
  | None => []
  end.

(** The bit positions of a byte, most significant first. *)
Definition bit_positions : list Z := [7; 6; 5; 4; 3; 2; 1; 0].

(** The bit positions the bit loop visits when started at [n]. *)
Fixpoint countdown (n : nat) : list Z :=
  match n with
  | O => []
  | S k => Z.of_nat k :: countdown k
  end.

(** The supported PIDs a bitmask denotes, in the spec's words: for each byte
    at index [i], for each bit position [j] from 7 down to 0, if the bit is
    set, [base + i*8 + j + 1]. *)
Fixpoint supported_pids_from (base i : Z) (bytes : list Z) : list Z :=
  match bytes with
  | [] => []
  | byte :: rest =>
      map (fun j => base + i * 8 + j + 1) (filter (Z.testbit byte) bit_positions)
      ++ supported_pids_from base (i + 1) rest
  end.

Definition supported_pids (r : DiagnosticResponse) : list Z :=
  supported_pids_from (response_pid r) 0 (payload r).

(** The value a [uint16_t] holds after assignment. *)
Definition to_uint16 (p : Z) : Z := p mod 2 ^ 16.

(** The manager with further registrations appended. *)
Definition with_requests (m : DiagnosticsManager)
    (l : list ActiveDiagnosticRequest) : DiagnosticsManager :=
  {| obd2Bus := obd2Bus m; initialized := initialized m;
     requests := requests m ++ l |}.

(** A tick tears the manager down when it finds it initialized and leaves it
    uninitialized. *)
Definition tears_down (before after : State) : bool :=
  initialized (manager before) && negb (initialized (manager after)).

(** The two-stage timeout as a monitor over a run.  [pending] is the time of
    the last tick that found the timer elapsed and re-probed, provided no
    later entry into the core has reset the timer; a tick that tears the
    manager down is justified when such a tick is pending and one more full
    period has passed since it.  The result is [false] as soon as a tick
    tears down without justification. *)
Section Monitor.

Variable diagnostic_decode_obd2_pid : DiagnosticResponse -> Q.

Definition first_timeout (st : State) (now : Z) : bool :=
  initialized (manager st)
  && elapsed (IGNITION_STATUS_TIMER st) now
  && negb (sentFinalIgnitionCheck st).

Fixpoint two_stage_from (st : State) (pending : option Z)
    (events : list Event) : bool :=
  match events with
  | [] => true
  | e :: rest =>
      let st1 := step diagnostic_decode_obd2_pid st e in
      match e with
      | Loop bus now =>
          let justified :=
            match pending with
            | Some t =>
                Qle_bool (period_ms (IGNITION_STATUS_TIMER st))
                  (inject_Z (now - t))
            | None => false
            end in
          if tears_down st st1 then
            justified && two_stage_from st1 None rest
          else if first_timeout st now then
            two_stage_from st1 (Some now) rest
          else two_stage_from st1 pending rest
      | _ =>
          if lastTick (IGNITION_STATUS_TIMER st1)
             =? lastTick (IGNITION_STATUS_TIMER st)
          then two_stage_from st1 pending rest
          else two_stage_from st1 None rest
      end
  end.

Definition two_stage_timeout (st : State) (events : list Event) : bool :=
  two_stage_from st None events.

(** The value a watched flag holds after a run, read off the events alone:
    that of [decoded != 0] for the last response for its PID the ignition
    handler received, and the initial one when there was none. *)
Fixpoint last_decoded (watched : Z) (initial : bool) (events : list Event)
  : bool :=
  match events with
  | [] => initial
  | Response CheckIgnitionStatus response _ :: rest =>
      if response_pid response =? watched then
        last_decoded watched
          (negb (Qeq_bool (diagnostic_decode_obd2_pid response) 0)) rest
      else last_decoded watched initial rest
  | _ :: rest => last_decoded watched initial rest
  end.

End Monitor.

(** ** Concrete collaborators for closed examples *)

(** A decoder for the two watched PIDs with the standard OBD-II scaling:
    engine speed is [(256 A + B) / 4] rpm, vehicle speed is [A] km/h. *)
Definition decode_watched (r : DiagnosticResponse) : Q :=
  match payload r with
  | a :: b :: _ =>
      if response_pid r =? ENGINE_SPEED_PID
      then (inject_Z (256 * a + b) / 4)%Q else inject_Z a
  | a :: _ => inject_Z a
  | [] => 0%Q
  end.

(** A length-delimited encoder over messages given by their encoded body:
    the one-byte length prefix goes out first, and the body only if it fits
    in what is left of the buffer; otherwise the call fails (stream full)
    with the prefix already counted. *)
Definition prefix_encoder (s : pb_ostream_t) (body : list Z)
  : bool * pb_ostream_t :=
  let size := Z.of_nat (List.length body) in
  if max_size s <? bytes_written s + 1 then (false, s)
  else
    let s1 := {| stream_buffer :=
                   firstn (Z.to_nat (bytes_written s)) (stream_buffer s)
                   ++ [size]
                   ++ skipn (Z.to_nat (bytes_written s + 1)) (stream_buffer s);
                 max_size := max_size s;
                 bytes_written := bytes_written s + 1 |} in
    if max_size s1 <? bytes_written s1 + size then (false, s1)
    else
      (true,
       {| stream_buffer :=
            firstn (Z.to_nat (bytes_written s1)) (stream_buffer s1)
            ++ body
            ++ skipn (Z.to_nat (bytes_written s1 + size)) (stream_buffer s1);
          max_size := max_size s1;
          bytes_written := bytes_written s1 + size |}).

Definition default_clock : FrequencyClock :=
  {| frequency := 2 # 10; lastTick := 0 |}.

(** The state at start-up: every static at its initialiser, the manager
    initialized with no request, on the given bus and configuration. *)
Definition startup (bus : option CanBus) (cfg : Configuration) : State :=
  {| ENGINE_STARTED := false;
     VEHICLE_IN_MOTION := false;
     IGNITION_STATUS_TIMER := default_clock;
     ignitionWasOn := false;
     pidSupportQueried := false;
     sentFinalIgnitionCheck := false;
     manager := {| obd2Bus := bus; initialized := true; requests := [] |};
     configuration := cfg |}.

Definition ignition_check_only : Configuration :=
  {| powerManagement := OBD2_IGNITION_CHECK; recurringObd2Requests := false |}.

Definition recurring_only : Configuration :=
  {| powerManagement := OTHER_POWER_MANAGEMENT; recurringObd2Requests := true |}.

Definition engine_speed_response (a b : Z) : DiagnosticResponse :=
  {| response_pid := ENGINE_SPEED_PID; payload := [a; b] |}.

Definition vehicle_speed_response (a : Z) : DiagnosticResponse :=
  {| response_pid := VEHICLE_SPEED_PID; payload := [a] |}.

(** A run with no OBD-II bus configured, in ignition-check mode: two ticks
    one millisecond apart, the first as the timer elapses. *)
Definition run_without_bus : list Event :=
  [Loop None 5000; Loop None 5001].

(** A run on bus 1 in which the vehicle answers every probe: the start-up
    probe at 100 ms, and the re-probe of the tick at 5100 ms at 5200 ms. *)
Definition run_answered : list Event :=
  [Initialize 0;
   Response CheckIgnitionStatus
     {| response_pid := ENGINE_SPEED_PID; payload := [12; 34] |} 100;
   Loop (Some 1) 200;
   Loop (Some 1) 5100;
   Response CheckIgnitionStatus
     {| response_pid := ENGINE_SPEED_PID; payload := [12; 34] |} 5200;
   Loop (Some 1) 5300].

(** A run on bus 1 in which the vehicle never answers. *)
Definition run_silent : list Event :=
  [Initialize 0; Loop (Some 1) 5000; Loop (Some 1) 9999].

(** ** Further specification-level definitions *)

(** The base PIDs the discovery loop of [loop] queries. *)
Definition discovery_bases : list Z := [0x00; 0x20; 0x40; 0x60; 0x80].

(** The recurring request [checkSupportedPids] registers for a registry
    row. *)
Definition recurring_request (bus : option CanBus) (row : Obd2Pid)
  : ActiveDiagnosticRequest :=
  {| request_bus := bus; request := obd2_request (obd2_pid row);
     request_name := Some (obd2_name row);
     request_decoder := Some handleObd2Pid;
     request_callback := Some CheckIgnitionStatus;
     frequencyHz := Some (obd2_frequency row) |}.

(** The shapes of request the core hands to the scheduler: an ignition probe
    for one of the two watched PIDs, a discovery query for one of the five
    base PIDs, or a recurring request for a row of the registry. *)
Definition core_request (r : ActiveDiagnosticRequest) : Prop :=
  r = ignition_probe (request_bus r) ENGINE_SPEED_PID "engine_speed"
  \/ r = ignition_probe (request_bus r) VEHICLE_SPEED_PID "vehicle_speed"
  \/ (exists p : Z, In p discovery_bases /\ r = support_query (request_bus r) p)
  \/ (exists row : Obd2Pid,
        In row OBD2_PIDS /\ r = recurring_request (request_bus r) row).

(** What [checkSupportedPids] appends to the manager's requests: nothing
    when its guard fails, the registrations of the derived PIDs otherwise. *)
Definition new_registrations (st : State) (response : DiagnosticResponse)
  : list ActiveDiagnosticRequest :=
  match obd2Bus (manager st) with
  | Some bus =>
      if recurringObd2Requests (configuration st) then
        flat_map (registration (Some bus))
          (map to_uint16 (supported_pids response))
      else []
  | None => []
  end.

(** The four-byte bitmask response that reports PID [p] alone: the base is
    the query whose range holds [p], and one bit is set. *)
Definition single_pid_response (p : Z) : DiagnosticResponse :=
  let k := (p - 1) mod 0x20 in
  {| response_pid := 0x20 * ((p - 1) / 0x20);
     payload := map (fun i => if i =? k / 8 then 2 ^ (k mod 8) else 0)
                  [0; 1; 2; 3] |}.

Section Runs.

Variable diagnostic_decode_obd2_pid : DiagnosticResponse -> Q.

(** No tick of the run finds the activity timer elapsed. *)
Fixpoint no_timeout (st : State) (events : list Event) : bool :=
  match events with
  | [] => true
  | e :: rest =>
      match e with
      | Loop _ now => negb (elapsed (IGNITION_STATUS_TIMER st) now)
      | _ => true
      end
      && no_timeout (step diagnostic_decode_obd2_pid st e) rest
  end.

End Runs.

(** The time at which an entry into the core takes place. *)
Definition event_time (e : Event) : Z :=
  match e with
  | Initialize now => now
  | Loop _ now => now
  | Response _ _ now => now
  end.

(** The entries of a run take place at non-decreasing times. *)
Fixpoint ordered_from (t : Z) (events : list Event) : bool :=
  match events with
  | [] => true
  | e :: rest => (t <=? event_time e) && ordered_from (event_time e) rest
  end.

Definition times_ordered (events : list Event) : bool :=
  match events with
  | [] => true
  | e :: rest => ordered_from (event_time e) rest
  end.

(** ** Properties *)

(** *** Helper lemmas *)

Lemma PowerManagement_eqb_eq (a b : PowerManagement) :
  PowerManagement_eqb a b = true <-> a = b.
Proof. destruct a, b; simpl; split; congruence. Qed.

Lemma PowerManagement_eqb_neq (a b : PowerManagement) :
  PowerManagement_eqb a b = false <-> a <> b.
Proof. destruct a, b; simpl; split; congruence. Qed.

Lemma ignition_guard_iff (st : State) :
  ignition_guard st = true <-> probe_condition st.
Proof.
  unfold ignition_guard, probe_condition.
  destruct (obd2Bus (manager st)) as [b|].
  - rewrite orb_true_iff, PowerManagement_eqb_eq. split.
    + intros H. split; [discriminate | exact H].
    + intros [_ H]. exact H.
  - split; [discriminate | intros [H _]; now elim H].
Qed.

Lemma ignition_guard_false_iff (st : State) :
  ignition_guard st = false <-> ~ probe_condition st.
Proof.
  rewrite <- ignition_guard_iff.
  destruct (ignition_guard st); split; congruence.
Qed.

Lemma elapsed_later (c : FrequencyClock) (now later : Z) :
  now <= later -> elapsed c now = true -> elapsed c later = true.
Proof.
  unfold elapsed. rewrite !Qle_bool_iff. intros Hle H.
  eapply Qle_trans; [exact H|].
  rewrite <- Zle_Qle. lia.
Qed.

Lemma app_neq_self {A : Type} (l : list A) (x : A) (l' : list A) :
  l ++ x :: l' <> l.
Proof.
  intros H. apply (f_equal (@List.length A)) in H.
  rewrite length_app in H. simpl in H. lia.
Qed.

Lemma requestIgnitionStatus_proceeds (st : State) (now : Z) :
  ignition_guard st = true ->
  requestIgnitionStatus st now =
    tick_timer
      (set_manager st
         (with_requests (manager st)
            [ignition_probe (obd2Bus (manager st)) ENGINE_SPEED_PID "engine_speed";
             ignition_probe (obd2Bus (manager st)) VEHICLE_SPEED_PID
               "vehicle_speed"]))
      now.
Proof.
  intros Hg. unfold requestIgnitionStatus. rewrite Hg.
  unfold addRequest, register, with_requests, ignition_probe. simpl.
  rewrite <- app_assoc. reflexivity.
Qed.

Lemma requestIgnitionStatus_skips (st : State) (now : Z) :
  ignition_guard st = false -> requestIgnitionStatus st now = st.
Proof. intros Hg. unfold requestIgnitionStatus. now rewrite Hg. Qed.

(** *** The ignition detector *)

(** C2.  The ignition response handler assigns [decoded != 0] to
    [ENGINE_STARTED] for an engine-speed response and to [VEHICLE_IN_MOTION]
    for a vehicle-speed response, leaves both flags alone for any other PID,
    and resets the activity timer exactly when the flag it just assigned was
    set to true; nothing else of the state changes.  In particular a zero
    vehicle speed clears [VEHICLE_IN_MOTION] without a reset, and a non-zero
    engine speed sets [ENGINE_STARTED] and resets the timer. *)
Theorem checkIgnitionStatus_flags_and_timer :
  forall (decode : DiagnosticResponse -> Q) (st : State)
         (response : DiagnosticResponse) (now : Z),
    let nonzero := negb (Qeq_bool (decode response) 0) in
    let st' := checkIgnitionStatus decode st response now in
    (response_pid response = ENGINE_SPEED_PID ->
       ENGINE_STARTED st' = nonzero
       /\ VEHICLE_IN_MOTION st' = VEHICLE_IN_MOTION st
       /\ IGNITION_STATUS_TIMER st' =
            (if nonzero then tick (IGNITION_STATUS_TIMER st) now
             else IGNITION_STATUS_TIMER st))
    /\ (response_pid response = VEHICLE_SPEED_PID ->
          VEHICLE_IN_MOTION st' = nonzero
          /\ ENGINE_STARTED st' = ENGINE_STARTED st
          /\ IGNITION_STATUS_TIMER st' =
               (if nonzero then tick (IGNITION_STATUS_TIMER st) now
                else IGNITION_STATUS_TIMER st))
    /\ (response_pid response <> ENGINE_SPEED_PID ->
        response_pid response <> VEHICLE_SPEED_PID -> st' = st)
    /\ (response_pid response = VEHICLE_SPEED_PID ->
        (decode response == 0)%Q ->
          VEHICLE_IN_MOTION st' = false
          /\ IGNITION_STATUS_TIMER st' = IGNITION_STATUS_TIMER st)
    /\ (response_pid response = ENGINE_SPEED_PID ->
        ~ (decode response == 0)%Q ->
          ENGINE_STARTED st' = true
          /\ IGNITION_STATUS_TIMER st' = tick (IGNITION_STATUS_TIMER st) now)
    /\ ignitionWasOn st' = ignitionWasOn st
    /\ pidSupportQueried st' = pidSupportQueried st
    /\ sentFinalIgnitionCheck st' = sentFinalIgnitionCheck st
    /\ manager st' = manager st
    /\ configuration st' = configuration st.
Proof.
  intros decode st response now nonzero st'.
  assert (Hes : response_pid response = ENGINE_SPEED_PID ->
                st' = if nonzero then tick_timer (set_ENGINE_STARTED st true) now
                      else set_ENGINE_STARTED st false).
  { intros Hp. subst st'. unfold checkIgnitionStatus. fold nonzero.
    rewrite Hp, Z.eqb_refl. now destruct nonzero. }
  assert (Hvs : response_pid response = VEHICLE_SPEED_PID ->
                st' = if nonzero
                      then tick_timer (set_VEHICLE_IN_MOTION st true) now
                      else set_VEHICLE_IN_MOTION st false).
  { intros Hp. subst st'. unfold checkIgnitionStatus. fold nonzero.
    rewrite Hp. change (VEHICLE_SPEED_PID =? ENGINE_SPEED_PID) with false.
    rewrite Z.eqb_refl. now destruct nonzero. }
  assert (Hother : response_pid response <> ENGINE_SPEED_PID ->
                   response_pid response <> VEHICLE_SPEED_PID -> st' = st).
  { intros H1 H2. subst st'. unfold checkIgnitionStatus.
    apply Z.eqb_neq in H1. apply Z.eqb_neq in H2. now rewrite H1, H2. }
  assert (Hframe : ignitionWasOn st' = ignitionWasOn st
                   /\ pidSupportQueried st' = pidSupportQueried st
                   /\ sentFinalIgnitionCheck st' = sentFinalIgnitionCheck st
                   /\ manager st' = manager st
                   /\ configuration st' = configuration st).
  { destruct (Z.eq_dec (response_pid response) ENGINE_SPEED_PID) as [He|He].
    - rewrite (Hes He). now destruct nonzero.
    - destruct (Z.eq_dec (response_pid response) VEHICLE_SPEED_PID) as [Hv|Hv].
      + rewrite (Hvs Hv). now destruct nonzero.
      + rewrite (Hother He Hv). repeat split. }
  split; [|split; [|split; [|split; [|split]]]]; try exact Hframe.
  - intros Hp. rewrite (Hes Hp). now destruct nonzero.
  - intros Hp. rewrite (Hvs Hp). now destruct nonzero.
  - exact Hother.
  - intros Hp Hz. rewrite (Hvs Hp).
    assert (Hn : nonzero = false).
    { subst nonzero. apply Qeq_bool_iff in Hz. now rewrite Hz. }
    rewrite Hn. split; reflexivity.
  - intros Hp Hz. rewrite (Hes Hp).
    assert (Hn : nonzero = true).
    { subst nonzero. apply negb_true_iff.
      destruct (Qeq_bool (decode response) 0) eqn:E; [|reflexivity].
      apply Qeq_bool_iff in E. contradiction. }
    rewrite Hn. split; reflexivity.
Qed.

(** C4.  The ignition probe proceeds if and only if a bus is configured and
    (the mode is ignition-check or recurring polling is enabled).  When it
    proceeds it issues exactly two one-shot requests, the engine-speed PID
    then the vehicle-speed PID, broadcast, mode 1, with the ignition handler
    as callback, and resets the timer; otherwise the state is unchanged.
    After [initialize] with a bus and ignition-check mode exactly these two
    one-shot requests have been added, so that they are the only ones when
    there was none before, and the timer was last ticked now. *)
Theorem requestIgnitionStatus_probe :
  forall (st : State) (now : Z),
    (requestIgnitionStatus st now <> st <-> probe_condition st)
    /\ (probe_condition st ->
          requestIgnitionStatus st now =
            tick_timer
              (set_manager st
                 (with_requests (manager st)
                    [ignition_probe (obd2Bus (manager st)) ENGINE_SPEED_PID
                       "engine_speed";
                     ignition_probe (obd2Bus (manager st)) VEHICLE_SPEED_PID
                       "vehicle_speed"]))
              now)
    /\ (~ probe_condition st -> requestIgnitionStatus st now = st)
    /\ (forall (bus : option CanBus) (p : Z) (name : string),
          let r := ignition_probe bus p name in
          recurring r = false
          /\ request_bus r = bus
          /\ arbitration_id (request r) = OBD2_FUNCTIONAL_BROADCAST_ID
          /\ mode (request r) = 0x1
          /\ has_pid (request r) = true
          /\ pid (request r) = p
          /\ request_callback r = Some CheckIgnitionStatus)
    /\ (forall bus : CanBus,
          obd2Bus (manager st) = Some bus ->
          powerManagement (configuration st) = OBD2_IGNITION_CHECK ->
          requests (manager (initialize st now)) =
            requests (manager st)
            ++ [ignition_probe (Some bus) 0x0c "engine_speed";
                ignition_probe (Some bus) 0x0d "vehicle_speed"]
          /\ (requests (manager st) = [] ->
              requests (manager (initialize st now)) =
                [ignition_probe (Some bus) 0x0c "engine_speed";
                 ignition_probe (Some bus) 0x0d "vehicle_speed"])
          /\ lastTick (IGNITION_STATUS_TIMER (initialize st now)) = now).
Proof.
  intros st now.
  assert (Hyes : probe_condition st ->
                 requestIgnitionStatus st now =
                   tick_timer
                     (set_manager st
                        (with_requests (manager st)
                           [ignition_probe (obd2Bus (manager st))
                              ENGINE_SPEED_PID "engine_speed";
                            ignition_probe (obd2Bus (manager st))
                              VEHICLE_SPEED_PID "vehicle_speed"]))
                     now).
  { intros H. apply requestIgnitionStatus_proceeds.
    now apply ignition_guard_iff. }
  assert (Hno : ~ probe_condition st -> requestIgnitionStatus st now = st).
  { intros H. apply requestIgnitionStatus_skips.
    now apply ignition_guard_false_iff. }
  split; [|split; [exact Hyes|split; [exact Hno|split]]].
  - split.
    + intros Hne. destruct (ignition_guard st) eqn:Hg.
      * now apply ignition_guard_iff.
      * elim Hne. now apply requestIgnitionStatus_skips.
    + intros Hc Heq. rewrite (Hyes Hc) in Heq.
      apply (f_equal (fun s => requests (manager s))) in Heq.
      simpl in Heq. now apply app_neq_self in Heq.
  - intros bus p name. simpl. repeat split.
  - intros bus Hbus Hpm. unfold initialize.
    rewrite Hyes.
    + simpl. rewrite Hbus. split; [reflexivity|].
      split; [|reflexivity]. intros Hreq. now rewrite Hreq.
    + split; [rewrite Hbus; discriminate | now left].
Qed.

(** *** Supported-PID discovery: the response handler *)

Lemma bit_test (byte j : Z) :
  0 <= j ->
  negb (Z.land (Z.shiftr byte j) 0x1 =? 0) = Z.testbit byte j.
Proof.
  intros Hj.
  replace (Z.testbit byte j) with (Z.testbit (Z.shiftr byte j) 0)
    by (rewrite Z.shiftr_spec by lia; f_equal; lia).
  rewrite Z.bit0_odd.
  change 0x1 with (Z.ones 1). rewrite Z.land_ones by lia.
  change (2 ^ 1) with 2. rewrite Zmod_odd.
  now destruct (Z.odd (Z.shiftr byte j)).
Qed.

Lemma with_requests_nil (m : DiagnosticsManager) : with_requests m [] = m.
Proof. destruct m. unfold with_requests. simpl. now rewrite app_nil_r. Qed.

Lemma with_requests_app (m : DiagnosticsManager)
    (l1 l2 : list ActiveDiagnosticRequest) :
  with_requests (with_requests m l1) l2 = with_requests m (l1 ++ l2).
Proof. unfold with_requests. simpl. now rewrite app_assoc. Qed.

Lemma register_supported_find (table : list Obd2Pid) (m : DiagnosticsManager)
    (p : Z) :
  register_supported m p table =
    with_requests m
      match find (fun row => obd2_pid row =? p) table with
      | Some row =>
          [ {| request_bus := obd2Bus m; request := obd2_request p;
               request_name := Some (obd2_name row);
               request_decoder := Some handleObd2Pid;
               request_callback := Some CheckIgnitionStatus;
               frequencyHz := Some (obd2_frequency row) |} ]
      | None => []
      end.
Proof.
  induction table as [|row rest IH]; simpl.
  - now rewrite with_requests_nil.
  - destruct (obd2_pid row =? p); [reflexivity | exact IH].
Qed.

Lemma register_supported_registration (m : DiagnosticsManager) (p : Z) :
  register_supported m p OBD2_PIDS =
    with_requests m (registration (obd2Bus m) p).
Proof.
  rewrite register_supported_find. unfold registration, find_pid.
  now destruct (find (fun row => obd2_pid row =? p) OBD2_PIDS).
Qed.

Lemma scan_bits_registrations (n : nat) :
  forall (m : DiagnosticsManager) (base i byte : Z),
    scan_bits m base i byte n =
      with_requests m
        (flat_map (registration (obd2Bus m))
           (map to_uint16
              (map (fun j => base + i * 8 + j + 1)
                 (filter (Z.testbit byte) (countdown n))))).
Proof.
  induction n as [|k IH]; intros m base i byte.
  - simpl. now rewrite with_requests_nil.
  - cbn [scan_bits countdown filter].
    rewrite bit_test by lia.
    destruct (Z.testbit byte (Z.of_nat k)).
    + rewrite IH, register_supported_registration, with_requests_app.
      reflexivity.
    + now rewrite IH.
Qed.

Lemma scan_bytes_registrations (bytes : list Z) :
  forall (m : DiagnosticsManager) (base i : Z),
    scan_bytes m base i bytes =
      with_requests m
        (flat_map (registration (obd2Bus m))
           (map to_uint16 (supported_pids_from base i bytes))).
Proof.
  induction bytes as [|byte rest IH]; intros m base i.
  - simpl. now rewrite with_requests_nil.
  - cbn [scan_bytes supported_pids_from].
    rewrite IH, scan_bits_registrations, with_requests_app.
    rewrite map_app, flat_map_app. reflexivity.
Qed.

Lemma supported_pids_from_range (bytes : list Z) :
  forall base i : Z,
    0 <= base -> 0 <= i ->
    base + 8 * (i + Z.of_nat (List.length bytes)) < 2 ^ 16 ->
    Forall (fun p => 0 <= p < 2 ^ 16) (supported_pids_from base i bytes).
Proof.
  induction bytes as [|byte rest IH]; intros base i Hb Hi Hlt.
  - constructor.
  - cbn [supported_pids_from]. apply Forall_app. split.
    + apply Forall_forall. intros p Hin.
      apply in_map_iff in Hin. destruct Hin as [j [Hp Hj]].
      apply filter_In in Hj. destruct Hj as [Hj _].
      assert (0 <= j <= 7).
      { unfold bit_positions in Hj. simpl in Hj.
        repeat (destruct Hj as [Hj|Hj]; [lia|]). contradiction. }
      simpl List.length in Hlt. lia.
    + apply IH; [lia | lia |]. simpl List.length in Hlt. lia.
Qed.

Lemma to_uint16_in_range (l : list Z) :
  Forall (fun p => 0 <= p < 2 ^ 16) l -> map to_uint16 l = l.
Proof.
  induction 1 as [|p l Hp _ IH]; simpl; [reflexivity|].
  unfold to_uint16 at 1. rewrite Z.mod_small by exact Hp. now rewrite IH.
Qed.

(** C3 (as amended).  When a bus is configured and recurring polling is
    enabled, the support-response handler scans each payload byte [i] from
    bit [j = 7] down to [0], derives [response.pid + i*8 + j + 1] (as the
    16-bit value the code stores) for each set bit, and appends for each
    derived PID found in the registry exactly one recurring request at the
    descriptor's frequency, with the telemetry handler as decoder and the
    ignition handler as callback; a derived PID absent from the registry
    registers nothing.  Without a bus, or with recurring polling disabled,
    the handler changes nothing.  For base PID 0, bit 7 of byte 0 derives
    PID 8 (not in the registry) and bit 3 derives PID 4, which registers
    "engine_load" at frequency 5. *)
Theorem checkSupportedPids_registers :
  forall (st : State) (response : DiagnosticResponse),
    (forall bus : CanBus,
        obd2Bus (manager st) = Some bus ->
        recurringObd2Requests (configuration st) = true ->
        checkSupportedPids st response =
          set_manager st
            (with_requests (manager st)
               (flat_map (registration (Some bus))
                  (map to_uint16 (supported_pids response)))))
    /\ (obd2Bus (manager st) = None
        \/ recurringObd2Requests (configuration st) = false ->
        checkSupportedPids st response = st)
    /\ (0 <= response_pid response ->
        response_pid response + 8 * payload_length response < 2 ^ 16 ->
        map to_uint16 (supported_pids response) = supported_pids response)
    /\ (forall (bus : option CanBus) (p : Z),
          match find_pid p with
          | Some row =>
              obd2_pid row = p
              /\ registration bus p =
                   [ {| request_bus := bus; request := obd2_request p;
                        request_name := Some (obd2_name row);
                        request_decoder := Some handleObd2Pid;
                        request_callback := Some CheckIgnitionStatus;
                        frequencyHz := Some (obd2_frequency row) |} ]
          | None =>
              registration bus p = []
              /\ ~ In p (map obd2_pid OBD2_PIDS)
          end)
    /\ supported_pids {| response_pid := 0x00; payload := [0x80] |} = [8]
    /\ supported_pids {| response_pid := 0x00; payload := [0x08] |} = [4]
    /\ (forall bus : option CanBus,
          registration bus 8 = []
          /\ registration bus 4 =
               [ {| request_bus := bus; request := obd2_request 4;
                    request_name := Some "engine_load"%string;
                    request_decoder := Some handleObd2Pid;
                    request_callback := Some CheckIgnitionStatus;
                    frequencyHz := Some 5%Q |} ]).
Proof.
  intros st response.
  split; [|split; [|split; [|split; [|split; [|split]]]]].
  - intros bus Hbus Hrec. unfold checkSupportedPids.
    rewrite Hbus, Hrec. simpl negb. cbv iota.
    rewrite scan_bytes_registrations, Hbus. reflexivity.
  - intros [Hbus|Hrec]; unfold checkSupportedPids.
    + now rewrite Hbus.
    + rewrite Hrec. now destruct (obd2Bus (manager st)).
  - intros Hpid Hlt. apply to_uint16_in_range.
    apply supported_pids_from_range; [exact Hpid | lia |].
    unfold payload_length in Hlt. lia.
  - intros bus p. unfold registration.
    destruct (find_pid p) as [row|] eqn:Hf.
    + split; [|reflexivity].
      unfold find_pid in Hf. apply find_some in Hf.
      destruct Hf as [_ Hf]. now apply Z.eqb_eq in Hf.
    + split; [reflexivity|].
      intros Hin. apply in_map_iff in Hin. destruct Hin as [row [Hp Hin]].
      unfold find_pid in Hf.
      apply (find_none _ _ Hf) in Hin. apply Z.eqb_neq in Hin. contradiction.
  - reflexivity.
  - reflexivity.
  - intros bus. split; reflexivity.
Qed.

(** C3, the claim as stated fails: with no OBD-II bus configured the handler
    returns before scanning, so a response for base PID 0 whose byte 0 has
    bit 3 set derives PID 4, which the registry knows, and yet nothing is
    registered. *)
Lemma checkSupportedPids_without_bus_registers_nothing :
  let st := startup None recurring_only in
  let response := {| response_pid := 0x00; payload := [0x08] |} in
  supported_pids response = [4]
  /\ find_pid 4 <> None
  /\ requests (manager (checkSupportedPids st response)) = []
  /\ checkSupportedPids st response = st.
Proof.
  cbv zeta. split; [reflexivity|]. split; [discriminate|].
  split; reflexivity.
Qed.

(** *** The polling state machine: one tick *)

Lemma requestIgnitionStatus_frame (st : State) (now : Z) :
  let st' := requestIgnitionStatus st now in
  ENGINE_STARTED st' = ENGINE_STARTED st
  /\ VEHICLE_IN_MOTION st' = VEHICLE_IN_MOTION st
  /\ ignitionWasOn st' = ignitionWasOn st
  /\ pidSupportQueried st' = pidSupportQueried st
  /\ sentFinalIgnitionCheck st' = sentFinalIgnitionCheck st
  /\ configuration st' = configuration st
  /\ initialized (manager st') = initialized (manager st)
  /\ obd2Bus (manager st') = obd2Bus (manager st).
Proof.
  cbv zeta. destruct (ignition_guard st) eqn:Hg.
  - rewrite requestIgnitionStatus_proceeds by exact Hg. simpl. repeat split.
  - rewrite requestIgnitionStatus_skips by exact Hg. repeat split.
Qed.

Lemma loop_uninitialized (st : State) (bus : option CanBus) (now : Z) :
  initialized (manager st) = false -> loop st bus now = st.
Proof. intros H. unfold loop. now rewrite H. Qed.

Lemma loop_first_timeout (st : State) (bus : option CanBus) (now : Z) :
  initialized (manager st) = true ->
  elapsed (IGNITION_STATUS_TIMER st) now = true ->
  sentFinalIgnitionCheck st = false ->
  loop st bus now =
    set_flags (requestIgnitionStatus st now)
      (ignitionWasOn st) (pidSupportQueried st) true.
Proof.
  intros Hi He Hs. unfold loop. rewrite Hi, He, Hs. simpl.
  destruct (requestIgnitionStatus_frame st now) as (_ & _ & Hw & Hq & _).
  now rewrite Hw, Hq.
Qed.

Lemma loop_final_timeout (st : State) (bus : option CanBus) (now : Z) :
  initialized (manager st) = true ->
  elapsed (IGNITION_STATUS_TIMER st) now = true ->
  sentFinalIgnitionCheck st = true ->
  loop st bus now =
    set_flags
      (if PowerManagement_eqb (powerManagement (configuration st))
            OBD2_IGNITION_CHECK
       then set_manager st (reset (manager st)) else st)
      false false true.
Proof.
  intros Hi He Hs. unfold loop. rewrite Hi, He, Hs. simpl.
  destruct (PowerManagement_eqb _ _); simpl; now rewrite ?Hs.
Qed.

Lemma query_supported_five (m : DiagnosticsManager) (bus : option CanBus) :
  query_supported query_fuel 0x0 m bus =
    with_requests m (map (support_query bus) [0x00; 0x20; 0x40; 0x60; 0x80]).
Proof.
  unfold query_fuel.
  change (Z.to_nat (0x80 + 1)) with (6 + 123)%nat.
  cbn [query_supported Nat.add Z.leb Z.compare Pos.compare Pos.compare_cont
       Z.add Pos.add Pos.succ Pos.add_carry].
  unfold addRequest, register, with_requests, support_query. simpl.
  rewrite <- !app_assoc. reflexivity.
Qed.

Lemma loop_not_elapsed (st : State) (bus : option CanBus) (now : Z) :
  initialized (manager st) = true ->
  elapsed (IGNITION_STATUS_TIMER st) now = false ->
  loop st bus now =
    if negb (ignitionWasOn st)
       && (ENGINE_STARTED st || VEHICLE_IN_MOTION st)
    then
      if recurringObd2Requests (configuration st)
         && negb (pidSupportQueried st)
      then
        set_manager (set_flags st true true false)
          (with_requests (manager st)
             (map (support_query bus) [0x00; 0x20; 0x40; 0x60; 0x80]))
      else set_flags st true (pidSupportQueried st) false
    else st.
Proof.
  intros Hi He. unfold loop. rewrite Hi, He. cbn [negb].
  destruct (negb (ignitionWasOn st)
            && (ENGINE_STARTED st || VEHICLE_IN_MOTION st)); [|reflexivity].
  rewrite query_supported_five. reflexivity.
Qed.

Lemma checkSupportedPids_guard (st : State) (response : DiagnosticResponse) :
  obd2Bus (manager st) = None
  \/ recurringObd2Requests (configuration st) = false ->
  checkSupportedPids st response = st.
Proof.
  intros [Hbus|Hrec]; unfold checkSupportedPids.
  - now rewrite Hbus.
  - rewrite Hrec. now destruct (obd2Bus (manager st)).
Qed.

(** One tick of the timeout logic.  A tick of the initialized machine that
    finds the timer elapsed and [sentFinalIgnitionCheck] false only calls the
    guarded ignition probe and sets the flag; a tick tears the manager down
    only when it finds the timer elapsed, the flag already true and the mode
    ignition-check, and in that case it always does. *)
Lemma loop_timeout_tick :
  forall (st : State) (bus : option CanBus) (now : Z),
    initialized (manager st) = true ->
    (elapsed (IGNITION_STATUS_TIMER st) now = true ->
     sentFinalIgnitionCheck st = false ->
       loop st bus now =
         set_flags (requestIgnitionStatus st now)
           (ignitionWasOn st) (pidSupportQueried st) true
       /\ sentFinalIgnitionCheck (loop st bus now) = true
       /\ initialized (manager (loop st bus now)) = true
       /\ (probe_condition st ->
             lastTick (IGNITION_STATUS_TIMER (loop st bus now)) = now
             /\ manager (loop st bus now) =
                  with_requests (manager st)
                    [ignition_probe (obd2Bus (manager st)) ENGINE_SPEED_PID
                       "engine_speed";
                     ignition_probe (obd2Bus (manager st)) VEHICLE_SPEED_PID
                       "vehicle_speed"])
       /\ (~ probe_condition st ->
             IGNITION_STATUS_TIMER (loop st bus now) = IGNITION_STATUS_TIMER st
             /\ manager (loop st bus now) = manager st))
    /\ (tears_down st (loop st bus now) = true ->
          elapsed (IGNITION_STATUS_TIMER st) now = true
          /\ sentFinalIgnitionCheck st = true
          /\ powerManagement (configuration st) = OBD2_IGNITION_CHECK)
    /\ (elapsed (IGNITION_STATUS_TIMER st) now = true ->
        sentFinalIgnitionCheck st = true ->
        powerManagement (configuration st) = OBD2_IGNITION_CHECK ->
          tears_down st (loop st bus now) = true
          /\ manager (loop st bus now) = reset (manager st)).
Proof.
  intros st bus now Hi. split; [|split].
  - intros He Hs. rewrite (loop_first_timeout st bus now Hi He Hs).
    split; [reflexivity|]. split; [reflexivity|]. split; [|split].
    + simpl. destruct (requestIgnitionStatus_frame st now)
        as (_ & _ & _ & _ & _ & _ & H & _). now rewrite H.
    + intros Hc. apply ignition_guard_iff in Hc.
      rewrite (requestIgnitionStatus_proceeds st now Hc). split; reflexivity.
    + intros Hc. apply ignition_guard_false_iff in Hc.
      rewrite (requestIgnitionStatus_skips st now Hc). split; reflexivity.
  - unfold tears_down. rewrite Hi. simpl. intros Ht.
    apply negb_true_iff in Ht.
    destruct (elapsed (IGNITION_STATUS_TIMER st) now) eqn:He.
    + destruct (sentFinalIgnitionCheck st) eqn:Hs.
      * split; [reflexivity|]. split; [reflexivity|].
        rewrite (loop_final_timeout st bus now Hi He Hs) in Ht.
        destruct (PowerManagement_eqb (powerManagement (configuration st))
                    OBD2_IGNITION_CHECK) eqn:Hp.
        -- now apply PowerManagement_eqb_eq.
        -- simpl in Ht. congruence.
      * rewrite (loop_first_timeout st bus now Hi He Hs) in Ht. simpl in Ht.
        destruct (requestIgnitionStatus_frame st now)
          as (_ & _ & _ & _ & _ & _ & H & _). congruence.
    + rewrite (loop_not_elapsed st bus now Hi He) in Ht.
      destruct (negb (ignitionWasOn st)
                && (ENGINE_STARTED st || VEHICLE_IN_MOTION st));
        [|congruence].
      destruct (recurringObd2Requests (configuration st)
                && negb (pidSupportQueried st)); simpl in Ht; congruence.
  - intros He Hs Hp. rewrite (loop_final_timeout st bus now Hi He Hs).
    apply PowerManagement_eqb_eq in Hp. rewrite Hp.
    unfold tears_down. rewrite Hi. split; reflexivity.
Qed.

(** C1, the claim as stated fails.  The monitor [two_stage_timeout] rejects
    [run_without_bus], in ignition-check mode with no OBD-II bus configured:
    the tick at 5000 ms finds the timer elapsed, the probe is skipped by its
    guard, the timer keeps its last tick (0), and the tick at 5001 ms tears
    the manager down: a single period has passed. *)
Lemma loop_teardown_without_second_period :
  let off := startup None ignition_check_only in
  two_stage_timeout decode_watched off run_without_bus = false
  /\ first_timeout off 5000 = true
  /\ lastTick (IGNITION_STATUS_TIMER (loop off None 5000)) = 0
  /\ initialized (manager (loop off None 5000)) = true
  /\ tears_down (loop off None 5000) (loop (loop off None 5000) None 5001)
     = true.
Proof. cbv zeta. repeat split; vm_compute; reflexivity. Qed.

(** The monitor also rejects [run_answered] followed by a tick at 10200 ms.
    The tick at 5100 ms re-probes, the answer at 5200 ms resets the timer,
    and the tick at 10200 ms, exactly one period after that answer, tears
    the manager down because [sentFinalIgnitionCheck] was still set: the
    ignition had been recorded as on before, so no tick cleared the flag. *)
Lemma loop_answered_vehicle_torn_down :
  let on := startup (Some 1) ignition_check_only in
  let answered := run decode_watched on run_answered in
  two_stage_timeout decode_watched on
    (run_answered ++ [Loop (Some 1) 10200]) = false
  /\ lastTick (IGNITION_STATUS_TIMER answered) = 5200
  /\ ENGINE_STARTED answered = true
  /\ ignitionWasOn answered = true
  /\ initialized (manager answered) = true
  /\ elapsed (IGNITION_STATUS_TIMER answered) 10199 = false
  /\ initialized (manager (loop answered (Some 1) 10200)) = false.
Proof. cbv zeta. repeat split; vm_compute; reflexivity. Qed.

(** The monitor accepts the run the design has in mind: a probe at start-up,
    no answer, a re-probe after one period and the teardown after the
    second. *)
Lemma two_stage_timeout_silent_vehicle :
  let on := startup (Some 1) ignition_check_only in
  two_stage_timeout decode_watched on (run_silent ++ [Loop (Some 1) 10000])
    = true
  /\ initialized (manager (run decode_watched on run_silent)) = true
  /\ initialized
       (manager (run decode_watched on (run_silent ++ [Loop (Some 1) 10000])))
     = false.
Proof. cbv zeta. repeat split; vm_compute; reflexivity. Qed.

(** C9.  On a tick of the initialized machine that finds the timer elapsed
    and [sentFinalIgnitionCheck] false while the probe's condition fails (no
    bus, for example), the flag is set although neither the timer nor the
    manager changes; so at every later tick, the very next one included, the
    timer is still elapsed and the flag true, and the tick takes the
    final-timeout branch. *)
Theorem loop_first_timeout_probe_skipped :
  forall (st : State) (bus : option CanBus) (now : Z),
    initialized (manager st) = true ->
    elapsed (IGNITION_STATUS_TIMER st) now = true ->
    sentFinalIgnitionCheck st = false ->
    ~ probe_condition st ->
    let st' := loop st bus now in
    sentFinalIgnitionCheck st' = true
    /\ IGNITION_STATUS_TIMER st' = IGNITION_STATUS_TIMER st
    /\ manager st' = manager st
    /\ (forall (bus' : option CanBus) (later : Z),
          now <= later ->
          elapsed (IGNITION_STATUS_TIMER st') later = true
          /\ loop st' bus' later =
               set_flags
                 (if PowerManagement_eqb (powerManagement (configuration st'))
                       OBD2_IGNITION_CHECK
                  then set_manager st' (reset (manager st')) else st')
                 false false true).
Proof.
  intros st bus now Hi He Hs Hc st'.
  assert (Hst' : st' = set_flags st (ignitionWasOn st) (pidSupportQueried st)
                         true).
  { subst st'. rewrite (loop_first_timeout st bus now Hi He Hs).
    apply ignition_guard_false_iff in Hc.
    now rewrite (requestIgnitionStatus_skips st now Hc). }
  rewrite Hst'. split; [reflexivity|]. split; [reflexivity|].
  split; [reflexivity|].
  intros bus' later Hle.
  assert (He' : elapsed (IGNITION_STATUS_TIMER st) later = true)
    by (eapply elapsed_later; eauto).
  split; [exact He'|].
  apply loop_final_timeout; [exact Hi | exact He' | reflexivity].
Qed.

(** C9, a concrete instance: no bus, ignition-check mode; the tick at 5000 ms
    sets the flag and the tick at 5001 ms already tears down. *)
Lemma loop_first_timeout_probe_skipped_witness :
  obd2Bus (manager (startup None ignition_check_only)) = None
  /\ sentFinalIgnitionCheck
       (loop (startup None ignition_check_only) None 5000) = true
  /\ IGNITION_STATUS_TIMER (loop (startup None ignition_check_only) None 5000)
     = default_clock
  /\ initialized
       (manager (loop (loop (startup None ignition_check_only) None 5000)
                   None 5001)) = false.
Proof.
  split; [reflexivity|].
  assert (Hc : ~ probe_condition (startup None ignition_check_only)).
  { intros [H _]. now apply H. }
  destruct (loop_first_timeout_probe_skipped
              (startup None ignition_check_only) None 5000
              eq_refl eq_refl eq_refl Hc) as (Hs & Ht & _ & Hnext).
  split; [exact Hs|]. split; [exact Ht|].
  destruct (Hnext None 5001 ltac:(discriminate)) as [_ Hl].
  rewrite Hl. reflexivity.
Defined.

(** C10.  On a final-timeout tick (manager initialized, timer elapsed,
    [sentFinalIgnitionCheck] true) in a mode other than ignition-check the
    manager is left as it was: not reset, still initialized, its requests
    intact; [ignitionWasOn] and [pidSupportQueried] are cleared all the
    same. *)
Theorem loop_final_timeout_other_mode :
  forall (st : State) (bus : option CanBus) (now : Z),
    initialized (manager st) = true ->
    elapsed (IGNITION_STATUS_TIMER st) now = true ->
    sentFinalIgnitionCheck st = true ->
    powerManagement (configuration st) <> OBD2_IGNITION_CHECK ->
    manager (loop st bus now) = manager st
    /\ initialized (manager (loop st bus now)) = true
    /\ requests (manager (loop st bus now)) = requests (manager st)
    /\ ignitionWasOn (loop st bus now) = false
    /\ pidSupportQueried (loop st bus now) = false.
Proof.
  intros st bus now Hi He Hs Hp.
  rewrite (loop_final_timeout st bus now Hi He Hs).
  apply PowerManagement_eqb_neq in Hp. rewrite Hp. simpl.
  repeat split. exact Hi.
Qed.

(** C10, a concrete instance: recurring polling without ignition-check.  The
    vehicle answers once, discovery registers "engine_load", then the bus
    goes silent; the second timeout leaves the manager alone. *)
Lemma loop_final_timeout_other_mode_witness :
  let st :=
    run decode_watched (startup (Some 1) recurring_only)
      [Initialize 0;
       Response CheckIgnitionStatus (engine_speed_response 12 34) 100;
       Loop (Some 1) 200;
       Response CheckSupportedPids
         {| response_pid := 0x00; payload := [0x08] |} 300;
       Loop (Some 1) 5100] in
  ignitionWasOn st = true
  /\ pidSupportQueried st = true
  /\ List.length (requests (manager st)) = 10%nat
  /\ manager (loop st (Some 1) 10100) = manager st
  /\ ignitionWasOn (loop st (Some 1) 10100) = false
  /\ pidSupportQueried (loop st (Some 1) 10100) = false.
Proof.
  cbv zeta.
  split; [reflexivity|]. split; [reflexivity|]. split; [reflexivity|].
  destruct (loop_final_timeout_other_mode
              (run decode_watched (startup (Some 1) recurring_only)
                 [Initialize 0;
                  Response CheckIgnitionStatus (engine_speed_response 12 34) 100;
                  Loop (Some 1) 200;
                  Response CheckSupportedPids
                    {| response_pid := 0x00; payload := [0x08] |} 300;
                  Loop (Some 1) 5100])
              (Some 1) 10100 eq_refl eq_refl eq_refl
              ltac:(vm_compute; discriminate))
    as (Hm & _ & _ & Hw & Hq).
  split; [exact Hm|]. split; [exact Hw | exact Hq].
Defined.

(** C7 (as amended).  Whenever the machine takes the final-timeout branch
    (manager initialized, timer elapsed, [sentFinalIgnitionCheck] true),
    [ignitionWasOn] and [pidSupportQueried] are false after the tick, while
    [sentFinalIgnitionCheck] is left as it was, true; in ignition-check mode
    the manager is reset on the same tick. *)
Theorem loop_final_timeout_flags :
  forall (st : State) (bus : option CanBus) (now : Z),
    initialized (manager st) = true ->
    elapsed (IGNITION_STATUS_TIMER st) now = true ->
    sentFinalIgnitionCheck st = true ->
    ignitionWasOn (loop st bus now) = false
    /\ pidSupportQueried (loop st bus now) = false
    /\ sentFinalIgnitionCheck (loop st bus now) = true
    /\ (powerManagement (configuration st) = OBD2_IGNITION_CHECK ->
          manager (loop st bus now) = reset (manager st)).
Proof.
  intros st bus now Hi He Hs.
  rewrite (loop_final_timeout st bus now Hi He Hs).
  split; [reflexivity|]. split; [reflexivity|]. split; [reflexivity|].
  intros Hp. apply PowerManagement_eqb_eq in Hp. now rewrite Hp.
Qed.

(** C7, a concrete instance: the silent vehicle of the two-stage run, at the
    second timeout. *)
Lemma loop_final_timeout_flags_witness :
  let st :=
    run decode_watched (startup (Some 1) ignition_check_only)
      [Initialize 0; Loop (Some 1) 5000] in
  ignitionWasOn (loop st (Some 1) 10000) = false
  /\ pidSupportQueried (loop st (Some 1) 10000) = false
  /\ sentFinalIgnitionCheck (loop st (Some 1) 10000) = true.
Proof.
  cbv zeta.
  destruct (loop_final_timeout_flags
              (run decode_watched (startup (Some 1) ignition_check_only)
                 [Initialize 0; Loop (Some 1) 5000])
              (Some 1) 10000 eq_refl eq_refl eq_refl)
    as (Hw & Hq & Hs & _).
  split; [exact Hw|]. split; [exact Hq | exact Hs].
Defined.

(** C7, the claim as stated fails: on the tick that tears the manager down,
    [sentFinalIgnitionCheck] is not reset; it is still true afterwards. *)
Lemma loop_teardown_keeps_sentFinalIgnitionCheck :
  let st :=
    run decode_watched (startup (Some 1) ignition_check_only)
      [Initialize 0; Loop (Some 1) 5000] in
  tears_down st (loop st (Some 1) 10000) = true
  /\ requests (manager (loop st (Some 1) 10000)) = []
  /\ ignitionWasOn (loop st (Some 1) 10000) = false
  /\ pidSupportQueried (loop st (Some 1) 10000) = false
  /\ sentFinalIgnitionCheck (loop st (Some 1) 10000) <> false.
Proof.
  cbv zeta. repeat split; try (vm_compute; reflexivity).
  vm_compute. discriminate.
Qed.

(** *** Supported-PID discovery: issuing the queries *)

(** C5 (as amended).  On a tick of the initialized machine with the timer not
    elapsed, discovery is triggered exactly when ignition is newly detected,
    recurring polling is enabled and discovery has not run yet; it then
    issues five one-shot broadcast mode-1 requests, PIDs 0x00, 0x20, 0x40,
    0x60 and 0x80, on the bus the tick was called with, each with the
    support-response handler as callback, and latches [pidSupportQueried];
    otherwise the tick issues nothing.  Whether a bus is configured is not
    examined when the queries are issued: it is the support-response handler
    that does nothing unless a bus is configured and recurring polling is
    enabled. *)
Theorem loop_discovery :
  forall (st : State) (bus : option CanBus) (now : Z),
    initialized (manager st) = true ->
    elapsed (IGNITION_STATUS_TIMER st) now = false ->
    let triggered :=
      negb (ignitionWasOn st)
      && (ENGINE_STARTED st || VEHICLE_IN_MOTION st)
      && recurringObd2Requests (configuration st)
      && negb (pidSupportQueried st) in
    manager (loop st bus now) =
      (if triggered then
         with_requests (manager st)
           (map (support_query bus) [0x00; 0x20; 0x40; 0x60; 0x80])
       else manager st)
    /\ (triggered = true -> pidSupportQueried (loop st bus now) = true)
    /\ (forall p : Z,
          let r := support_query bus p in
          recurring r = false
          /\ request_bus r = bus
          /\ arbitration_id (request r) = OBD2_FUNCTIONAL_BROADCAST_ID
          /\ mode (request r) = 0x1
          /\ has_pid (request r) = true
          /\ pid (request r) = p
          /\ request_callback r = Some CheckSupportedPids)
    /\ (forall response : DiagnosticResponse,
          obd2Bus (manager (loop st bus now)) = None
          \/ recurringObd2Requests (configuration (loop st bus now)) = false ->
          checkSupportedPids (loop st bus now) response = loop st bus now).
Proof.
  intros st bus now Hi He triggered. subst triggered.
  rewrite (loop_not_elapsed st bus now Hi He).
  split; [|split; [|split]].
  - destruct (negb (ignitionWasOn st)
              && (ENGINE_STARTED st || VEHICLE_IN_MOTION st));
      [|reflexivity].
    simpl andb.
    destruct (recurringObd2Requests (configuration st)
              && negb (pidSupportQueried st)); reflexivity.
  - rewrite <- andb_assoc. intros Ht. apply andb_true_iff in Ht.
    destruct Ht as [H1 H2]. rewrite H1, H2. reflexivity.
  - intros p. simpl. repeat split.
  - intros response. apply checkSupportedPids_guard.
Qed.

(** C5, a concrete instance: recurring polling on bus 1, the first tick
    after the vehicle answered the start-up probe. *)
Lemma loop_discovery_witness :
  let st :=
    run decode_watched (startup (Some 1) recurring_only)
      [Initialize 0;
       Response CheckIgnitionStatus (engine_speed_response 12 34) 100] in
  requests (manager (loop st (Some 1) 200)) =
    requests (manager st)
    ++ map (support_query (Some 1)) [0x00; 0x20; 0x40; 0x60; 0x80]
  /\ pidSupportQueried (loop st (Some 1) 200) = true.
Proof.
  cbv zeta.
  destruct (loop_discovery
              (run decode_watched (startup (Some 1) recurring_only)
                 [Initialize 0;
                  Response CheckIgnitionStatus (engine_speed_response 12 34)
                    100])
              (Some 1) 200 eq_refl eq_refl) as (Hm & Hq & _).
  split; [rewrite Hm; reflexivity | apply Hq; reflexivity].
Defined.

(** C5, the claim as stated fails: discovery issues five requests, not four,
    and it issues them whether or not the manager has an OBD-II bus. *)
Lemma loop_discovery_issues_five :
  let st :=
    run decode_watched (startup (Some 1) recurring_only)
      [Initialize 0;
       Response CheckIgnitionStatus (engine_speed_response 12 34) 100] in
  let unplugged :=
    set_manager st
      {| obd2Bus := None; initialized := true; requests := [] |} in
  List.length (requests (manager (loop st (Some 1) 200)))
    = (List.length (requests (manager st)) + 5)%nat
  /\ List.length (requests (manager (loop st (Some 1) 200)))
       <> (List.length (requests (manager st)) + 4)%nat
  /\ map (fun r => pid (request r))
       (skipn 2 (requests (manager (loop st (Some 1) 200))))
     = [0x00; 0x20; 0x40; 0x60; 0x80]
  /\ obd2Bus (manager unplugged) = None
  /\ List.length (requests (manager (loop unplugged (Some 1) 200))) = 5%nat.
Proof.
  cbv zeta. repeat split; try (vm_compute; reflexivity).
  vm_compute. discriminate.
Qed.

(** *** The ignition flags over a run *)

Lemma checkIgnitionStatus_watched (decode : DiagnosticResponse -> Q)
    (st : State) (response : DiagnosticResponse) (now : Z) :
  ENGINE_STARTED (checkIgnitionStatus decode st response now) =
    (if response_pid response =? ENGINE_SPEED_PID
     then negb (Qeq_bool (decode response) 0) else ENGINE_STARTED st)
  /\ VEHICLE_IN_MOTION (checkIgnitionStatus decode st response now) =
       (if response_pid response =? VEHICLE_SPEED_PID
        then negb (Qeq_bool (decode response) 0) else VEHICLE_IN_MOTION st).
Proof.
  unfold checkIgnitionStatus.
  destruct (response_pid response =? ENGINE_SPEED_PID) eqn:He.
  - apply Z.eqb_eq in He. rewrite He.
    change (ENGINE_SPEED_PID =? VEHICLE_SPEED_PID) with false.
    destruct (negb (Qeq_bool (decode response) 0)); split; reflexivity.
  - destruct (response_pid response =? VEHICLE_SPEED_PID).
    + destruct (negb (Qeq_bool (decode response) 0)); split; reflexivity.
    + split; reflexivity.
Qed.

Lemma checkSupportedPids_watched (st : State) (response : DiagnosticResponse) :
  ENGINE_STARTED (checkSupportedPids st response) = ENGINE_STARTED st
  /\ VEHICLE_IN_MOTION (checkSupportedPids st response) = VEHICLE_IN_MOTION st.
Proof.
  unfold checkSupportedPids.
  destruct (obd2Bus (manager st)); [|split; reflexivity].
  destruct (negb (recurringObd2Requests (configuration st)));
    split; reflexivity.
Qed.

Lemma loop_watched (st : State) (bus : option CanBus) (now : Z) :
  ENGINE_STARTED (loop st bus now) = ENGINE_STARTED st
  /\ VEHICLE_IN_MOTION (loop st bus now) = VEHICLE_IN_MOTION st.
Proof.
  destruct (initialized (manager st)) eqn:Hi.
  - destruct (elapsed (IGNITION_STATUS_TIMER st) now) eqn:He.
    + destruct (sentFinalIgnitionCheck st) eqn:Hs.
      * rewrite (loop_final_timeout st bus now Hi He Hs).
        destruct (PowerManagement_eqb _ _); split; reflexivity.
      * rewrite (loop_first_timeout st bus now Hi He Hs). simpl.
        destruct (requestIgnitionStatus_frame st now) as (H1 & H2 & _).
        split; assumption.
    + rewrite (loop_not_elapsed st bus now Hi He).
      destruct (negb (ignitionWasOn st)
                && (ENGINE_STARTED st || VEHICLE_IN_MOTION st));
        [|split; reflexivity].
      destruct (recurringObd2Requests (configuration st)
                && negb (pidSupportQueried st)); split; reflexivity.
  - rewrite (loop_uninitialized st bus now Hi). split; reflexivity.
Qed.

(** C6 (as amended).  Over every sequence of operations of the core the two
    ignition flags are written by the ignition response handler alone, each
    as [decoded != 0] of a response for its own PID: after a run a flag holds
    what the last such response assigned, true for a non-zero value and
    false for a zero one, and its initial value when there was none.  No
    tick, the teardown included, and no other operation changes them. *)
Theorem ignition_flags_follow_last_response :
  forall (decode : DiagnosticResponse -> Q) (events : list Event) (st : State),
    ENGINE_STARTED (run decode st events) =
      last_decoded decode ENGINE_SPEED_PID (ENGINE_STARTED st) events
    /\ VEHICLE_IN_MOTION (run decode st events) =
         last_decoded decode VEHICLE_SPEED_PID (VEHICLE_IN_MOTION st) events.
Proof.
  intros decode events. unfold run.
  induction events as [|e rest IH]; intros st.
  - split; reflexivity.
  - cbn [fold_left]. destruct (IH (step decode st e)) as [IHe IHv].
    rewrite IHe, IHv. clear IH IHe IHv.
    destruct e as [now|bus now|[|] response now]; cbn [step last_decoded].
    + unfold initialize.
      destruct (requestIgnitionStatus_frame st now) as (H1 & H2 & _).
      now rewrite H1, H2.
    + destruct (loop_watched st bus now) as [H1 H2]. now rewrite H1, H2.
    + destruct (checkIgnitionStatus_watched decode st response now)
        as [H1 H2].
      rewrite H1, H2.
      destruct (response_pid response =? ENGINE_SPEED_PID);
        destruct (response_pid response =? VEHICLE_SPEED_PID);
        split; reflexivity.
    + destruct (checkSupportedPids_watched st response) as [H1 H2].
      now rewrite H1, H2.
Qed.

(** C6, the claim as stated fails.  A zero-valued engine-speed response
    clears [ENGINE_STARTED] although no teardown took place; and the
    teardown itself, once it happens, leaves a set flag set. *)
Lemma ignition_flag_cleared_by_zero_response :
  let running :=
    run decode_watched (startup (Some 1) ignition_check_only)
      [Initialize 0;
       Response CheckIgnitionStatus (engine_speed_response 12 34) 100] in
  let stalled :=
    checkIgnitionStatus decode_watched running (engine_speed_response 0 0)
      200 in
  let torn_down :=
    run decode_watched running
      [Loop (Some 1) 200; Loop (Some 1) 5100; Loop (Some 1) 10100] in
  ENGINE_STARTED running = true
  /\ ENGINE_STARTED stalled = false
  /\ initialized (manager stalled) = true
  /\ requests (manager stalled) = requests (manager running)
  /\ initialized (manager torn_down) = false
  /\ ENGINE_STARTED torn_down = true.
Proof. cbv zeta. repeat split; vm_compute; reflexivity. Qed.

(** *** The wire codec boundary *)

Lemma serialize_null (Message : Type)
    (encode : pb_ostream_t -> Message -> bool * pb_ostream_t)
    (payload : list Z) (length : Z) :
  serialize Message encode None payload length = (0, payload).
Proof. reflexivity. Qed.

Lemma serialize_length (Message : Type)
    (encode : pb_ostream_t -> Message -> bool * pb_ostream_t)
    (message : Message) (payload : list Z) (length : Z) :
  fst (serialize Message encode (Some message) payload length) =
    int_of_size_t
      (bytes_written
         (snd (encode (pb_ostream_from_buffer payload length) message))).
Proof.
  unfold serialize.
  now destruct (encode (pb_ostream_from_buffer payload length) message).
Qed.

(** C8, the failing input.  With a length-delimited encoder, a non-null
    message whose three-byte body does not fit a two-byte buffer makes the
    encoder fail after it has written the length prefix; [serialize] logs
    the error and returns the stream's count all the same: 1, not 0. *)
Theorem serialize_encode_error_returns_count :
  fst (prefix_encoder (pb_ostream_from_buffer [0; 0] 2) [1; 2; 3]) = false
  /\ fst (serialize (list Z) prefix_encoder (Some [1; 2; 3]) [0; 0] 2) = 1
  /\ fst (serialize (list Z) prefix_encoder None [0; 0] 2) = 0
  /\ serialize (list Z) prefix_encoder (Some [1; 2; 3]) [0; 0; 0; 0] 4
     = (4, [3; 1; 2; 3]).
Proof. repeat split; vm_compute; reflexivity. Qed.

(** *** Worked examples *)

(** An engine-speed response of 777.5 rpm at 100 ms sets [ENGINE_STARTED]
    and resets the timer; a vehicle-speed response of 0 km/h at 200 ms then
    clears [VEHICLE_IN_MOTION] and leaves the timer at 100 ms. *)
Example checkIgnitionStatus_running_then_standing :
  let moving :=
    set_VEHICLE_IN_MOTION (startup (Some 1) ignition_check_only) true in
  let st1 :=
    checkIgnitionStatus decode_watched moving (engine_speed_response 12 38)
      100 in
  let st2 :=
    checkIgnitionStatus decode_watched st1 (vehicle_speed_response 0) 200 in
  (decode_watched (engine_speed_response 12 38) == 7775 # 10)%Q
  /\ ENGINE_STARTED st1 = true
  /\ lastTick (IGNITION_STATUS_TIMER st1) = 100
  /\ VEHICLE_IN_MOTION st1 = true
  /\ VEHICLE_IN_MOTION st2 = false
  /\ ENGINE_STARTED st2 = true
  /\ lastTick (IGNITION_STATUS_TIMER st2) = 100.
Proof. cbv zeta. repeat split; vm_compute; reflexivity. Qed.

(** [initialize] at 7 ms on bus 1 in ignition-check mode; and the probe
    skipped in a mode that asks for neither. *)
Example initialize_at_startup :
  let st := initialize (startup (Some 1) ignition_check_only) 7 in
  let idle :=
    startup (Some 1)
      {| powerManagement := OTHER_POWER_MANAGEMENT;
         recurringObd2Requests := false |} in
  map (fun r => (pid (request r), request_name r, recurring r))
    (requests (manager st))
  = [(0x0c, Some "engine_speed"%string, false);
     (0x0d, Some "vehicle_speed"%string, false)]
  /\ lastTick (IGNITION_STATUS_TIMER st) = 7
  /\ initialize idle 7 = idle.
Proof. cbv zeta. repeat split; vm_compute; reflexivity. Qed.

(** A two-byte bitmask for base PID 0: bits 7 and 3 of byte 0 and bits 4 and
    3 of byte 1 denote PIDs 8, 4, 13 and 12, of which the registry knows the
    last three. *)
Example checkSupportedPids_two_bytes :
  let response := {| response_pid := 0x00; payload := [0x88; 0x18] |} in
  let st := checkSupportedPids (startup (Some 1) recurring_only) response in
  supported_pids response = [8; 4; 13; 12]
  /\ map (fun r => (pid (request r), request_name r, frequencyHz r))
       (requests (manager st))
     = [(4, Some "engine_load"%string, Some 5%Q);
        (13, Some "vehicle_speed"%string, Some 5%Q);
        (12, Some "engine_speed"%string, Some 5%Q)].
Proof. cbv zeta. repeat split; vm_compute; reflexivity. Qed.

(** Discovery runs once: later ticks with the ignition still on issue no
    further query. *)
Example loop_discovery_latched :
  let st :=
    run decode_watched (startup (Some 1) recurring_only)
      [Initialize 0;
       Response CheckIgnitionStatus (engine_speed_response 12 34) 100;
       Loop (Some 1) 200] in
  pidSupportQueried st = true
  /\ List.length (requests (manager st)) = 7%nat
  /\ run decode_watched st
       [Loop (Some 1) 300;
        Response CheckIgnitionStatus (engine_speed_response 12 34) 400;
        Loop (Some 1) 500]
     = tick_timer st 400.
Proof. cbv zeta. repeat split; vm_compute; reflexivity. Qed.

(** ** Further properties of the core *)

(** *** What each operation leaves alone *)

Lemma set_manager_same (st : State) : set_manager st (manager st) = st.
Proof. now destruct st. Qed.

Lemma checkIgnitionStatus_frame (decode : DiagnosticResponse -> Q)
    (st : State) (response : DiagnosticResponse) (now : Z) :
  let st' := checkIgnitionStatus decode st response now in
  ignitionWasOn st' = ignitionWasOn st
  /\ pidSupportQueried st' = pidSupportQueried st
  /\ sentFinalIgnitionCheck st' = sentFinalIgnitionCheck st
  /\ manager st' = manager st
  /\ configuration st' = configuration st
  /\ frequency (IGNITION_STATUS_TIMER st')
     = frequency (IGNITION_STATUS_TIMER st).
Proof.
  cbv zeta. unfold checkIgnitionStatus.
  destruct (response_pid response =? ENGINE_SPEED_PID);
    [|destruct (response_pid response =? VEHICLE_SPEED_PID)];
    try destruct (negb (Qeq_bool (decode response) 0));
    repeat split.
Qed.

Lemma checkSupportedPids_appends (st : State) (response : DiagnosticResponse) :
  checkSupportedPids st response =
    set_manager st (with_requests (manager st) (new_registrations st response)).
Proof.
  unfold checkSupportedPids, new_registrations.
  destruct (obd2Bus (manager st)) as [bus|] eqn:Hbus.
  - destruct (recurringObd2Requests (configuration st)); simpl negb; cbv iota.
    + now rewrite scan_bytes_registrations, Hbus.
    + now rewrite with_requests_nil, set_manager_same.
  - now rewrite with_requests_nil, set_manager_same.
Qed.

Lemma loop_cases (st : State) (bus : option CanBus) (now : Z) :
  loop st bus now = st
  \/ loop st bus now =
       set_flags (requestIgnitionStatus st now)
         (ignitionWasOn st) (pidSupportQueried st) true
  \/ loop st bus now = set_flags st false false true
  \/ (initialized (manager st) = true
      /\ loop st bus now =
           set_flags (set_manager st (reset (manager st))) false false true)
  \/ loop st bus now = set_flags st true (pidSupportQueried st) false
  \/ loop st bus now =
       set_manager (set_flags st true true false)
         (with_requests (manager st) (map (support_query bus) discovery_bases)).
Proof.
  destruct (initialized (manager st)) eqn:Hi.
  - destruct (elapsed (IGNITION_STATUS_TIMER st) now) eqn:He.
    + destruct (sentFinalIgnitionCheck st) eqn:Hs.
      * rewrite (loop_final_timeout st bus now Hi He Hs).
        destruct (PowerManagement_eqb _ _); auto 6.
      * rewrite (loop_first_timeout st bus now Hi He Hs). auto.
    + rewrite (loop_not_elapsed st bus now Hi He).
      destruct (negb (ignitionWasOn st)
                && (ENGINE_STARTED st || VEHICLE_IN_MOTION st)); [|auto].
      destruct (recurringObd2Requests (configuration st)
                && negb (pidSupportQueried st)); auto 8.
  - rewrite (loop_uninitialized st bus now Hi). auto.
Qed.

Lemma requestIgnitionStatus_timer_frequency (st : State) (now : Z) :
  frequency (IGNITION_STATUS_TIMER (requestIgnitionStatus st now))
  = frequency (IGNITION_STATUS_TIMER st).
Proof.
  destruct (ignition_guard st) eqn:Hg.
  - now rewrite requestIgnitionStatus_proceeds.
  - now rewrite requestIgnitionStatus_skips.
Qed.

Lemma step_frame (decode : DiagnosticResponse -> Q) (st : State) (e : Event) :
  configuration (step decode st e) = configuration st
  /\ obd2Bus (manager (step decode st e)) = obd2Bus (manager st)
  /\ frequency (IGNITION_STATUS_TIMER (step decode st e))
     = frequency (IGNITION_STATUS_TIMER st).
Proof.
  destruct e as [now|bus now|[|] response now]; cbn [step].
  - unfold initialize.
    destruct (requestIgnitionStatus_frame st now)
      as (_ & _ & _ & _ & _ & Hc & _ & Hb).
    split; [exact Hc|]. split; [exact Hb|].
    apply requestIgnitionStatus_timer_frequency.
  - destruct (requestIgnitionStatus_frame st now)
      as (_ & _ & _ & _ & _ & Hc & _ & Hb).
    pose proof (requestIgnitionStatus_timer_frequency st now) as Hf.
    destruct (loop_cases st bus now)
      as [H|[H|[H|[[_ H]|[H|H]]]]]; rewrite H; simpl; auto.
  - destruct (checkIgnitionStatus_frame decode st response now)
      as (_ & _ & _ & Hm & Hc & Hf).
    rewrite Hm. auto.
  - rewrite checkSupportedPids_appends. simpl. auto.
Qed.

(** X1.  No operation of the core changes the configuration, the manager's
    OBD-II bus or the frequency of the activity timer: after any run they
    are what they were. *)
Theorem run_preserves_configuration :
  forall (decode : DiagnosticResponse -> Q) (events : list Event) (st : State),
    configuration (run decode st events) = configuration st
    /\ obd2Bus (manager (run decode st events)) = obd2Bus (manager st)
    /\ frequency (IGNITION_STATUS_TIMER (run decode st events))
       = frequency (IGNITION_STATUS_TIMER st).
Proof.
  intros decode events. unfold run.
  induction events as [|e rest IH]; intros st.
  - repeat split.
  - cbn [fold_left].
    destruct (IH (step decode st e)) as (Hc & Hb & Hf).
    destruct (step_frame decode st e) as (Hc' & Hb' & Hf').
    rewrite Hc, Hb, Hf. auto.
Qed.

Lemma step_uninitialized (decode : DiagnosticResponse -> Q) (st : State)
    (e : Event) :
  initialized (manager st) = false ->
  initialized (manager (step decode st e)) = false
  /\ ignitionWasOn (step decode st e) = ignitionWasOn st
  /\ pidSupportQueried (step decode st e) = pidSupportQueried st
  /\ sentFinalIgnitionCheck (step decode st e) = sentFinalIgnitionCheck st.
Proof.
  intros Hi. destruct e as [now|bus now|[|] response now]; cbn [step].
  - unfold initialize.
    destruct (requestIgnitionStatus_frame st now)
      as (_ & _ & Hw & Hq & Hs & _ & Hin & _).
    rewrite Hin. auto.
  - rewrite (loop_uninitialized st bus now Hi). auto.
  - destruct (checkIgnitionStatus_frame decode st response now)
      as (Hw & Hq & Hs & Hm & _).
    rewrite Hm. auto.
  - rewrite checkSupportedPids_appends. simpl. auto.
Qed.

(** X2.  The core never marks the manager initialized.  Once it is
    uninitialized, as after the teardown, it stays so over any run, every
    tick returns the state as it found it, and the three polling flags keep
    their values. *)
Theorem run_stays_uninitialized :
  forall (decode : DiagnosticResponse -> Q) (events : list Event) (st : State),
    initialized (manager st) = false ->
    initialized (manager (run decode st events)) = false
    /\ ignitionWasOn (run decode st events) = ignitionWasOn st
    /\ pidSupportQueried (run decode st events) = pidSupportQueried st
    /\ sentFinalIgnitionCheck (run decode st events)
       = sentFinalIgnitionCheck st
    /\ (forall (bus : option CanBus) (now : Z),
          loop (run decode st events) bus now = run decode st events).
Proof.
  intros decode events. unfold run.
  induction events as [|e rest IH]; intros st Hi.
  - cbn [fold_left]. split; [exact Hi|]. do 3 (split; [reflexivity|]).
    intros bus now. now apply loop_uninitialized.
  - cbn [fold_left].
    destruct (step_uninitialized decode st e Hi) as (Hi' & Hw & Hq & Hs).
    destruct (IH (step decode st e) Hi') as (H1 & H2 & H3 & H4 & H5).
    rewrite H2, H3, H4. auto.
Qed.

(** X2, a concrete instance: the silent vehicle after its teardown; a late
    answer and further ticks do not revive the machine. *)
Lemma run_stays_uninitialized_witness :
  let off :=
    run decode_watched (startup (Some 1) ignition_check_only)
      (run_silent ++ [Loop (Some 1) 10000]) in
  let later :=
    run decode_watched off
      [Response CheckIgnitionStatus (engine_speed_response 12 34) 10100;
       Loop (Some 1) 10200; Loop (Some 1) 20000] in
  initialized (manager off) = false
  /\ initialized (manager later) = false
  /\ sentFinalIgnitionCheck later = true.
Proof.
  cbv zeta. split; [reflexivity|].
  destruct (run_stays_uninitialized decode_watched
              [Response CheckIgnitionStatus (engine_speed_response 12 34) 10100;
               Loop (Some 1) 10200; Loop (Some 1) 20000]
              (run decode_watched (startup (Some 1) ignition_check_only)
                 (run_silent ++ [Loop (Some 1) 10000]))
              eq_refl) as (Hi & _ & _ & Hs & _).
  split; [exact Hi | rewrite Hs; reflexivity].
Defined.

(** X3.  Every entry into the core either appends to the manager's requests
    or, when it is the tick that tears the manager down, and only then,
    removes them all: the core cancels no single request. *)
Theorem step_requests_append_or_reset :
  forall (decode : DiagnosticResponse -> Q) (st : State) (e : Event),
    if tears_down st (step decode st e)
    then requests (manager (step decode st e)) = []
         /\ exists (bus : option CanBus) (now : Z), e = Loop bus now
    else exists l : list ActiveDiagnosticRequest,
           requests (manager (step decode st e)) = requests (manager st) ++ l.
Proof.
  intros decode st e.
  assert (Hnil : forall m : DiagnosticsManager,
             exists l, requests m = requests m ++ l).
  { intros m. exists []. now rewrite app_nil_r. }
  assert (Hprobe : forall now,
             initialized (manager (requestIgnitionStatus st now))
             = initialized (manager st)
             /\ exists l, requests (manager (requestIgnitionStatus st now))
                          = requests (manager st) ++ l).
  { intros now. destruct (ignition_guard st) eqn:Hg.
    - rewrite requestIgnitionStatus_proceeds by exact Hg. simpl.
      split; [reflexivity|]. eexists. reflexivity.
    - rewrite requestIgnitionStatus_skips by exact Hg. auto. }
  unfold tears_down.
  destruct e as [now|bus now|[|] response now]; cbn [step].
  - unfold initialize. destruct (Hprobe now) as [Hi Hl].
    rewrite Hi, andb_negb_r. exact Hl.
  - destruct (Hprobe now) as [Hi Hl].
    destruct (loop_cases st bus now)
      as [H|[H|[H|[[Hinit H]|[H|H]]]]]; rewrite H; simpl;
      rewrite ?Hi, ?andb_negb_r; auto.
    + rewrite Hinit. simpl. split; [reflexivity|]. now exists bus, now.
    + eexists. reflexivity.
  - destruct (checkIgnitionStatus_frame decode st response now)
      as (_ & _ & _ & Hm & _).
    rewrite Hm, andb_negb_r. auto.
  - rewrite checkSupportedPids_appends. simpl. rewrite andb_negb_r.
    eexists. reflexivity.
Qed.

(** *** The requests the core registers *)

Lemma registration_core (bus : option CanBus) (p : Z) :
  Forall core_request (registration bus p).
Proof.
  unfold registration. destruct (find_pid p) as [row|] eqn:Hf; [|constructor].
  unfold find_pid in Hf. apply find_some in Hf. destruct Hf as [Hin Hp].
  apply Z.eqb_eq in Hp. subst p.
  constructor; [|constructor].
  right. right. right. exists row. split; [exact Hin | reflexivity].
Qed.

Lemma new_registrations_core (st : State) (response : DiagnosticResponse) :
  Forall core_request (new_registrations st response).
Proof.
  unfold new_registrations.
  destruct (obd2Bus (manager st)) as [bus|]; [|constructor].
  destruct (recurringObd2Requests (configuration st)); [|constructor].
  induction (map to_uint16 (supported_pids response)) as [|p l IH]; simpl.
  - constructor.
  - apply Forall_app. split; [apply registration_core | exact IH].
Qed.

Lemma ignition_probes_core (bus : option CanBus) :
  Forall core_request
    [ignition_probe bus ENGINE_SPEED_PID "engine_speed";
     ignition_probe bus VEHICLE_SPEED_PID "vehicle_speed"].
Proof.
  constructor; [left; reflexivity|].
  constructor; [right; left; reflexivity | constructor].
Qed.

Lemma support_queries_core (bus : option CanBus) :
  Forall core_request (map (support_query bus) discovery_bases).
Proof.
  apply Forall_forall. intros r Hin. apply in_map_iff in Hin.
  destruct Hin as [p [Hr Hp]]. subst r.
  right. right. left. exists p. split; [exact Hp | reflexivity].
Qed.

Lemma requestIgnitionStatus_requests_core (st : State) (now : Z) :
  Forall core_request (requests (manager st)) ->
  Forall core_request (requests (manager (requestIgnitionStatus st now))).
Proof.
  intros H. destruct (ignition_guard st) eqn:Hg.
  - rewrite requestIgnitionStatus_proceeds by exact Hg. simpl.
    apply Forall_app. split; [exact H | apply ignition_probes_core].
  - now rewrite requestIgnitionStatus_skips.
Qed.

Lemma step_requests_core (decode : DiagnosticResponse -> Q) (st : State)
    (e : Event) :
  Forall core_request (requests (manager st)) ->
  Forall core_request (requests (manager (step decode st e))).
Proof.
  intros H. destruct e as [now|bus now|[|] response now]; cbn [step].
  - now apply requestIgnitionStatus_requests_core.
  - pose proof (requestIgnitionStatus_requests_core st now H) as Hp.
    destruct (loop_cases st bus now)
      as [Hl|[Hl|[Hl|[[_ Hl]|[Hl|Hl]]]]]; rewrite Hl; simpl; auto.
    apply Forall_app. split; [exact H | apply support_queries_core].
  - destruct (checkIgnitionStatus_frame decode st response now)
      as (_ & _ & _ & Hm & _).
    now rewrite Hm.
  - rewrite checkSupportedPids_appends. simpl.
    apply Forall_app. split; [exact H | apply new_registrations_core].
Qed.

(** X4.  Whatever the run, every request the core has registered is one of
    three shapes: a one-shot ignition probe for PID 0x0c or 0x0d, a one-shot
    discovery query for one of the bases 0x00, 0x20, 0x40, 0x60, 0x80, or a
    recurring request for a row of the registry, with that row's name and
    frequency, the telemetry decoder and the ignition callback.  All are
    broadcast mode-1 requests with a PID. *)
Theorem run_requests_core :
  forall (decode : DiagnosticResponse -> Q) (events : list Event) (st : State),
    Forall core_request (requests (manager st)) ->
    Forall core_request (requests (manager (run decode st events)))
    /\ Forall (fun r => arbitration_id (request r) = OBD2_FUNCTIONAL_BROADCAST_ID
                        /\ mode (request r) = 0x1
                        /\ has_pid (request r) = true
                        /\ (recurring r = true ->
                            request_callback r = Some CheckIgnitionStatus
                            /\ In (pid (request r)) (map obd2_pid OBD2_PIDS)))
         (requests (manager (run decode st events))).
Proof.
  intros decode events st H.
  assert (Hrun : Forall core_request
                   (requests (manager (run decode st events)))).
  { revert st H. unfold run.
    induction events as [|e rest IH]; intros st H; cbn [fold_left].
    - exact H.
    - apply IH. now apply step_requests_core. }
  split; [exact Hrun|].
  eapply Forall_impl; [|exact Hrun].
  intros r [Hr|[Hr|[[p [_ Hr]]|[row [Hin Hr]]]]]; rewrite Hr;
    cbn -[In map OBD2_PIDS];
    (split; [reflexivity|]); (split; [reflexivity|]);
    (split; [reflexivity|]); intros Hrec; try discriminate Hrec.
  split; [reflexivity | now apply in_map].
Qed.

(** X4, a concrete instance: the run of the answered vehicle from
    start-up. *)
Lemma run_requests_core_witness :
  Forall core_request
    (requests (manager (run decode_watched
                          (startup (Some 1) ignition_check_only)
                          run_answered)))
  /\ List.length
       (requests (manager (run decode_watched
                             (startup (Some 1) ignition_check_only)
                             run_answered))) = 4%nat.
Proof.
  split; [|reflexivity].
  apply (run_requests_core decode_watched run_answered
           (startup (Some 1) ignition_check_only)).
  constructor.
Defined.

(** *** The registry *)

Lemma register_supported_in (table : list Obd2Pid) (m : DiagnosticsManager)
    (row : Obd2Pid) :
  NoDup (map obd2_pid table) ->
  In row table ->
  register_supported m (obd2_pid row) table =
    register m (recurring_request (obd2Bus m) row).
Proof.
  induction table as [|r rest IH]; intros Hnd Hin; [contradiction|].
  simpl in Hnd. inversion Hnd as [|x l Hnotin Hnd']; subst.
  cbn [register_supported].
  destruct (obd2_pid r =? obd2_pid row) eqn:He.
  - apply Z.eqb_eq in He. destruct Hin as [Hr|Hin].
    + subst r. reflexivity.
    + elim Hnotin. rewrite He. now apply in_map.
  - destruct Hin as [Hr|Hin].
    + subst r. rewrite Z.eqb_refl in He. discriminate.
    + now apply IH.
Qed.

Lemma register_supported_not_in (table : list Obd2Pid)
    (m : DiagnosticsManager) (p : Z) :
  ~ In p (map obd2_pid table) -> register_supported m p table = m.
Proof.
  induction table as [|r rest IH]; intros Hnotin; [reflexivity|].
  cbn [register_supported].
  destruct (obd2_pid r =? p) eqn:He.
  - apply Z.eqb_eq in He. elim Hnotin. now left.
  - apply IH. intros Hin. apply Hnotin. now right.
Qed.

Lemma OBD2_PIDS_NoDup : NoDup (map obd2_pid OBD2_PIDS).
Proof.
  assert (H : nodup Z.eq_dec (map obd2_pid OBD2_PIDS) = map obd2_pid OBD2_PIDS)
    by (vm_compute; reflexivity).
  rewrite <- H. apply NoDup_nodup.
Qed.

(** X5.  No two rows of the registry share a PID, so the linear scan with its
    [break] is a lookup: it registers the row whose PID was asked for,
    whichever position the row has in the table, and registers nothing for
    a PID that no row has. *)
Theorem register_supported_lookup :
  forall (m : DiagnosticsManager) (p : Z),
    NoDup (map obd2_pid OBD2_PIDS)
    /\ (forall row : Obd2Pid,
          In row OBD2_PIDS -> obd2_pid row = p ->
          register_supported m p OBD2_PIDS =
            register m (recurring_request (obd2Bus m) row))
    /\ (~ In p (map obd2_pid OBD2_PIDS) ->
        register_supported m p OBD2_PIDS = m).
Proof.
  intros m p. split; [exact OBD2_PIDS_NoDup|]. split.
  - intros row Hin Hp. subst p.
    apply register_supported_in; [exact OBD2_PIDS_NoDup | exact Hin].
  - apply register_supported_not_in.
Qed.

(** *** The bitmask scan *)

Lemma supported_pids_from_zeros (bytes : list Z) :
  forall base i : Z,
    Forall (fun byte => byte = 0) bytes ->
    supported_pids_from base i bytes = [].
Proof.
  induction bytes as [|byte rest IH]; intros base i H; [reflexivity|].
  inversion H as [|x l Hbyte Hrest]; subst.
  cbn [supported_pids_from]. now rewrite IH.
Qed.

(** X6.  A bitmask with no bit set, the empty payload included, registers
    nothing: the handler returns the state it was given. *)
Theorem checkSupportedPids_zero_mask :
  forall (st : State) (response : DiagnosticResponse),
    Forall (fun byte => byte = 0) (payload response) ->
    checkSupportedPids st response = st.
Proof.
  intros st response H. rewrite checkSupportedPids_appends.
  assert (Hnew : new_registrations st response = []).
  { unfold new_registrations, supported_pids.
    rewrite supported_pids_from_zeros by exact H.
    destruct (obd2Bus (manager st)); [|reflexivity].
    now destruct (recurringObd2Requests (configuration st)). }
  now rewrite Hnew, with_requests_nil, set_manager_same.
Qed.

(** X6, a concrete instance: four zero bytes for base PID 0x20 after
    discovery was triggered. *)
Lemma checkSupportedPids_zero_mask_witness :
  let st :=
    run decode_watched (startup (Some 1) recurring_only)
      [Initialize 0;
       Response CheckIgnitionStatus (engine_speed_response 12 34) 100;
       Loop (Some 1) 200] in
  checkSupportedPids st {| response_pid := 0x20; payload := [0; 0; 0; 0] |}
  = st.
Proof.
  cbv zeta.
  apply (checkSupportedPids_zero_mask
           (run decode_watched (startup (Some 1) recurring_only)
              [Initialize 0;
               Response CheckIgnitionStatus (engine_speed_response 12 34) 100;
               Loop (Some 1) 200])
           {| response_pid := 0x20; payload := [0; 0; 0; 0] |}).
  repeat constructor.
Defined.

Lemma supported_pids_from_app (l1 l2 : list Z) :
  forall base i : Z,
    supported_pids_from base i (l1 ++ l2) =
      supported_pids_from base i l1
      ++ supported_pids_from base (i + Z.of_nat (List.length l1)) l2.
Proof.
  induction l1 as [|byte rest IH]; intros base i.
  - simpl. now rewrite Z.add_0_r.
  - cbn [app supported_pids_from List.length].
    rewrite IH, <- app_assoc. do 3 f_equal. lia.
Qed.

Lemma supported_pids_from_shift (bytes : list Z) :
  forall base i k : Z,
    supported_pids_from (base + 8 * k) i bytes =
      supported_pids_from base (i + k) bytes.
Proof.
  induction bytes as [|byte rest IH]; intros base i k; [reflexivity|].
  cbn [supported_pids_from]. rewrite IH. f_equal.
  - apply map_ext. intros j. lia.
  - f_equal. lia.
Qed.

Lemma new_registrations_after (st : State)
    (l : list ActiveDiagnosticRequest) (response : DiagnosticResponse) :
  new_registrations (set_manager st (with_requests (manager st) l)) response
  = new_registrations st response.
Proof. reflexivity. Qed.

Lemma checkSupportedPids_twice (st : State) (r1 r2 : DiagnosticResponse) :
  checkSupportedPids (checkSupportedPids st r1) r2 =
    set_manager st
      (with_requests (manager st)
         (new_registrations st r1 ++ new_registrations st r2)).
Proof.
  rewrite (checkSupportedPids_appends st r1), checkSupportedPids_appends.
  rewrite new_registrations_after.
  cbn [manager set_manager]. rewrite with_requests_app. reflexivity.
Qed.

(** X7.  Scanning a payload is scanning its parts in turn: a response whose
    payload is [l1 ++ l2] has the effect of the response with payload [l1]
    followed by a response with payload [l2] for the base PID advanced by
    eight per byte of [l1]. *)
Theorem checkSupportedPids_app :
  forall (st : State) (base : Z) (l1 l2 : list Z),
    checkSupportedPids st {| response_pid := base; payload := l1 ++ l2 |} =
      checkSupportedPids
        (checkSupportedPids st {| response_pid := base; payload := l1 |})
        {| response_pid := base + 8 * Z.of_nat (List.length l1);
           payload := l2 |}.
Proof.
  intros st base l1 l2.
  rewrite checkSupportedPids_twice, checkSupportedPids_appends.
  do 2 f_equal.
  unfold new_registrations, supported_pids. cbn [response_pid payload].
  destruct (obd2Bus (manager st)) as [bus|]; [|reflexivity].
  destruct (recurringObd2Requests (configuration st)); [|reflexivity].
  rewrite supported_pids_from_app, supported_pids_from_shift.
  now rewrite map_app, flat_map_app.
Qed.

Lemma supported_pids_from_bounds (bytes : list Z) :
  forall base i p : Z,
    In p (supported_pids_from base i bytes) ->
    base + 8 * i < p <= base + 8 * (i + Z.of_nat (List.length bytes)).
Proof.
  induction bytes as [|byte rest IH]; intros base i p Hin; [contradiction|].
  cbn [supported_pids_from] in Hin. apply in_app_or in Hin.
  cbn [List.length]. destruct Hin as [Hin|Hin].
  - apply in_map_iff in Hin. destruct Hin as [j [Hp Hj]].
    apply filter_In in Hj. destruct Hj as [Hj _].
    assert (0 <= j <= 7).
    { unfold bit_positions in Hj. simpl in Hj.
      repeat (destruct Hj as [Hj|Hj]; [lia|]). contradiction. }
    lia.
  - apply IH in Hin. lia.
Qed.

Lemma bit_positions_NoDup : NoDup bit_positions.
Proof.
  assert (H : nodup Z.eq_dec bit_positions = bit_positions)
    by (vm_compute; reflexivity).
  rewrite <- H. apply NoDup_nodup.
Qed.

Lemma supported_pids_from_NoDup (bytes : list Z) :
  forall base i : Z, NoDup (supported_pids_from base i bytes).
Proof.
  induction bytes as [|byte rest IH]; intros base i; [constructor|].
  cbn [supported_pids_from].
  assert (Hblock : NoDup (map (fun j => base + i * 8 + j + 1)
                            (filter (Z.testbit byte) bit_positions))).
  { apply NoDup_map_NoDup_ForallPairs.
    - intros x y _ _ Hxy. lia.
    - apply NoDup_filter, bit_positions_NoDup. }
  assert (Hsplit : forall p,
             In p (map (fun j => base + i * 8 + j + 1)
                     (filter (Z.testbit byte) bit_positions)) ->
             ~ In p (supported_pids_from base (i + 1) rest)).
  { intros p Hin Hin'.
    assert (Hb : In p (supported_pids_from base i [byte])).
    { cbn [supported_pids_from]. now rewrite app_nil_r. }
    apply supported_pids_from_bounds in Hb.
    apply supported_pids_from_bounds in Hin'.
    cbn [List.length] in Hb. lia. }
  revert Hblock Hsplit.
  generalize (map (fun j => base + i * 8 + j + 1)
                (filter (Z.testbit byte) bit_positions)).
  intros block. induction block as [|p block IHb]; intros Hblock Hsplit.
  - apply IH.
  - cbn [app]. inversion Hblock as [|x l Hp Hblock']; subst.
    constructor.
    + intros Hin. apply in_app_or in Hin. destruct Hin as [Hin|Hin].
      * contradiction.
      * apply (Hsplit p); [now left | exact Hin].
    + apply IHb; [exact Hblock'|].
      intros q Hq. apply Hsplit. now right.
Qed.

Lemma registration_pids (bus : option CanBus) (l : list Z) :
  map (fun r => pid (request r)) (flat_map (registration bus) l) =
    filter (fun p => match find_pid p with Some _ => true | None => false end)
      l.
Proof.
  induction l as [|p l IH]; [reflexivity|].
  cbn [flat_map filter]. rewrite map_app, IH.
  unfold registration at 1. now destruct (find_pid p).
Qed.

Lemma find_pid_in (p : Z) :
  match find_pid p with Some _ => true | None => false end = true ->
  In p (map obd2_pid OBD2_PIDS).
Proof.
  destruct (find_pid p) as [row|] eqn:Hf; [|discriminate]. intros _.
  unfold find_pid in Hf. apply find_some in Hf. destruct Hf as [Hin Hp].
  apply Z.eqb_eq in Hp. subst p. now apply in_map.
Qed.

(** X8.  When the base PID and the payload stay within 16 bits, one bitmask
    response registers no PID twice, registers only PIDs above its base and
    no further than eight per payload byte, and never more requests than
    the registry has rows.  The four-byte answers to the five discovery
    queries, whose bases lie 0x20 apart, therefore register disjoint
    PIDs. *)
Theorem checkSupportedPids_registers_distinct :
  forall (st : State) (response : DiagnosticResponse),
    0 <= response_pid response ->
    response_pid response + 8 * payload_length response < 2 ^ 16 ->
    exists l : list ActiveDiagnosticRequest,
      requests (manager (checkSupportedPids st response)) =
        requests (manager st) ++ l
      /\ NoDup (map (fun r => pid (request r)) l)
      /\ Forall (fun r =>
                   response_pid response < pid (request r)
                   <= response_pid response + 8 * payload_length response
                   /\ In (pid (request r)) (map obd2_pid OBD2_PIDS)) l
      /\ (List.length l <= List.length OBD2_PIDS)%nat.
Proof.
  intros st response Hpid Hlt.
  exists (new_registrations st response).
  split; [now rewrite checkSupportedPids_appends|].
  assert (Hcases : new_registrations st response = []
                   \/ exists bus,
                        new_registrations st response =
                          flat_map (registration (Some bus))
                            (supported_pids response)).
  { unfold new_registrations.
    destruct (obd2Bus (manager st)) as [bus|]; [|now left].
    destruct (recurringObd2Requests (configuration st)); [|now left].
    right. exists bus. rewrite to_uint16_in_range; [reflexivity|].
    apply supported_pids_from_range; [exact Hpid | lia |].
    unfold payload_length in Hlt. lia. }
  destruct Hcases as [Hnil|[bus Hnew]].
  - rewrite Hnil. simpl. split; [constructor|]. split; [constructor | lia].
  - rewrite Hnew.
    assert (Hnd : NoDup (map (fun r => pid (request r))
                           (flat_map (registration (Some bus))
                              (supported_pids response)))).
    { rewrite registration_pids. apply NoDup_filter.
      apply supported_pids_from_NoDup. }
    assert (Hall : forall p,
               In p (map (fun r => pid (request r))
                       (flat_map (registration (Some bus))
                          (supported_pids response))) ->
               (response_pid response < p
                <= response_pid response + 8 * payload_length response)
               /\ In p (map obd2_pid OBD2_PIDS)).
    { intros p Hin. rewrite registration_pids in Hin.
      apply filter_In in Hin. destruct Hin as [Hin Hf].
      split; [|now apply find_pid_in].
      apply supported_pids_from_bounds in Hin.
      unfold payload_length. lia. }
    split; [exact Hnd|]. split.
    + apply Forall_forall. intros r Hr. apply Hall.
      now apply (in_map (fun r => pid (request r))).
    + rewrite <- (length_map (fun r => pid (request r))).
      rewrite <- (length_map obd2_pid OBD2_PIDS).
      apply NoDup_incl_length; [exact Hnd|].
      intros p Hp. now apply Hall.
Qed.

(** X8, a concrete instance: the two-byte bitmask of the worked example. *)
Lemma checkSupportedPids_registers_distinct_witness :
  exists l : list ActiveDiagnosticRequest,
    requests (manager (checkSupportedPids (startup (Some 1) recurring_only)
                         {| response_pid := 0x00; payload := [0x88; 0x18] |}))
    = requests (manager (startup (Some 1) recurring_only)) ++ l
    /\ NoDup (map (fun r => pid (request r)) l)
    /\ (List.length l <= List.length OBD2_PIDS)%nat.
Proof.
  destruct (checkSupportedPids_registers_distinct
              (startup (Some 1) recurring_only)
              {| response_pid := 0x00; payload := [0x88; 0x18] |}
              ltac:(vm_compute; discriminate) ltac:(vm_compute; reflexivity))
    as [l (Hl & Hnd & _ & Hlen)].
  exists l. split; [exact Hl|]. split; [exact Hnd | exact Hlen].
Defined.

(** X9.  Discovery can reach the whole registry: for every row there is a
    four-byte answer to one of the five queries that reports the row's PID
    alone, and on it the handler registers exactly the recurring request of
    that row. *)
Theorem discovery_reaches_every_row :
  forall (st : State) (bus : CanBus) (row : Obd2Pid),
    obd2Bus (manager st) = Some bus ->
    recurringObd2Requests (configuration st) = true ->
    In row OBD2_PIDS ->
    In (response_pid (single_pid_response (obd2_pid row))) discovery_bases
    /\ List.length (payload (single_pid_response (obd2_pid row))) = 4%nat
    /\ checkSupportedPids st (single_pid_response (obd2_pid row)) =
         set_manager st
           (register (manager st) (recurring_request (Some bus) row)).
Proof.
  intros st bus row Hbus Hrec Hin.
  assert (Hall : Forall
            (fun row =>
               existsb (Z.eqb (response_pid (single_pid_response (obd2_pid row))))
                 discovery_bases = true
               /\ flat_map (registration (Some bus))
                    (map to_uint16
                       (supported_pids (single_pid_response (obd2_pid row))))
                  = [recurring_request (Some bus) row])
            OBD2_PIDS).
  { repeat constructor. }
  rewrite Forall_forall in Hall. destruct (Hall row Hin) as [Hbase Hreg].
  split; [|split; [reflexivity|]].
  - apply existsb_exists in Hbase. destruct Hbase as [b [Hb Heq]].
    apply Z.eqb_eq in Heq. now rewrite Heq.
  - rewrite checkSupportedPids_appends. unfold new_registrations.
    rewrite Hbus, Hrec, Hreg. reflexivity.
Qed.

(** X9, a concrete instance: the row of "mass_airflow", PID 0x66, is reported
    by bit 5 of byte 0 of the answer to the query for base 0x60. *)
Lemma discovery_reaches_every_row_witness :
  single_pid_response 0x66
  = {| response_pid := 0x60; payload := [0x20; 0; 0; 0] |}
  /\ requests
       (manager (checkSupportedPids (startup (Some 1) recurring_only)
                   (single_pid_response 0x66)))
     = [recurring_request (Some 1)
          {| obd2_pid := 0x66; obd2_name := "mass_airflow";
             obd2_frequency := 5 |}].
Proof.
  split; [reflexivity|].
  destruct (discovery_reaches_every_row (startup (Some 1) recurring_only) 1
              {| obd2_pid := 0x66; obd2_name := "mass_airflow";
                 obd2_frequency := 5 |}
              eq_refl eq_refl ltac:(simpl; auto 20)) as (_ & _ & H).
  change 0x66 with
    (obd2_pid {| obd2_pid := 0x66; obd2_name := "mass_airflow";
                 obd2_frequency := 5 |}) at 1.
  rewrite H. reflexivity.
Defined.

(** *** The polling state machine over several entries *)

Lemma checkIgnitionStatus_nonzero (decode : DiagnosticResponse -> Q)
    (st : State) (response : DiagnosticResponse) (now : Z) :
  response_pid response = ENGINE_SPEED_PID
  \/ response_pid response = VEHICLE_SPEED_PID ->
  ~ (decode response == 0)%Q ->
  checkIgnitionStatus decode st response now =
    tick_timer
      (if response_pid response =? ENGINE_SPEED_PID
       then set_ENGINE_STARTED st true else set_VEHICLE_IN_MOTION st true)
      now.
Proof.
  intros Hp Hz. unfold checkIgnitionStatus.
  assert (Hn : negb (Qeq_bool (decode response) 0) = true).
  { apply negb_true_iff.
    destruct (Qeq_bool (decode response) 0) eqn:E; [|reflexivity].
    apply Qeq_bool_iff in E. contradiction. }
  rewrite Hn. destruct Hp as [Hp|Hp]; rewrite Hp.
  - now rewrite Z.eqb_refl.
  - change (VEHICLE_SPEED_PID =? ENGINE_SPEED_PID) with false.
    now rewrite Z.eqb_refl.
Qed.

Lemma loop_ignition_on_idle (st : State) (bus : option CanBus) (now : Z) :
  ignitionWasOn st = true ->
  elapsed (IGNITION_STATUS_TIMER st) now = false ->
  loop st bus now = st.
Proof.
  intros Hw He. destruct (initialized (manager st)) eqn:Hi.
  - rewrite (loop_not_elapsed st bus now Hi He), Hw. reflexivity.
  - now apply loop_uninitialized.
Qed.

(** X10.  Once the re-probe has gone out while the ignition was known to be
    on, no answer can take it back: over any run in which no tick finds the
    timer elapsed, however many responses arrive, [ignitionWasOn] and
    [sentFinalIgnitionCheck] both stay true and the manager stays
    initialized; so the first tick that then finds the timer elapsed takes
    the final-timeout branch and, in ignition-check mode, tears the manager
    down after that single period. *)
Theorem sentFinalIgnitionCheck_sticky :
  forall (decode : DiagnosticResponse -> Q) (events : list Event) (st : State),
    initialized (manager st) = true ->
    ignitionWasOn st = true ->
    sentFinalIgnitionCheck st = true ->
    no_timeout decode st events = true ->
    initialized (manager (run decode st events)) = true
    /\ ignitionWasOn (run decode st events) = true
    /\ sentFinalIgnitionCheck (run decode st events) = true
    /\ (forall (bus : option CanBus) (now : Z),
          elapsed (IGNITION_STATUS_TIMER (run decode st events)) now = true ->
          powerManagement (configuration (run decode st events))
          = OBD2_IGNITION_CHECK ->
          tears_down (run decode st events)
            (loop (run decode st events) bus now) = true).
Proof.
  intros decode events. unfold run.
  induction events as [|e rest IH]; intros st Hi Hw Hs Hq.
  - cbn [fold_left]. split; [exact Hi|]. split; [exact Hw|].
    split; [exact Hs|]. intros bus now He Hp.
    rewrite (loop_final_timeout st bus now Hi He Hs).
    apply PowerManagement_eqb_eq in Hp. rewrite Hp.
    unfold tears_down. now rewrite Hi.
  - cbn [fold_left]. cbn [no_timeout] in Hq.
    apply andb_true_iff in Hq. destruct Hq as [Hq Hrest].
    apply IH; [| | |exact Hrest];
      destruct e as [now|bus now|[|] response now]; cbn [step].
    + unfold initialize.
      destruct (requestIgnitionStatus_frame st now)
        as (_ & _ & _ & _ & _ & _ & H & _). now rewrite H.
    + apply negb_true_iff in Hq.
      now rewrite (loop_ignition_on_idle st bus now Hw Hq).
    + destruct (checkIgnitionStatus_frame decode st response now)
        as (_ & _ & _ & H & _). now rewrite H.
    + now rewrite checkSupportedPids_appends.
    + unfold initialize.
      destruct (requestIgnitionStatus_frame st now)
        as (_ & _ & H & _). now rewrite H.
    + apply negb_true_iff in Hq.
      now rewrite (loop_ignition_on_idle st bus now Hw Hq).
    + destruct (checkIgnitionStatus_frame decode st response now)
        as (H & _). now rewrite H.
    + now rewrite checkSupportedPids_appends.
    + unfold initialize.
      destruct (requestIgnitionStatus_frame st now)
        as (_ & _ & _ & _ & H & _). now rewrite H.
    + apply negb_true_iff in Hq.
      now rewrite (loop_ignition_on_idle st bus now Hw Hq).
    + destruct (checkIgnitionStatus_frame decode st response now)
        as (_ & _ & H & _). now rewrite H.
    + now rewrite checkSupportedPids_appends.
Qed.

(** X10, a concrete instance: the answered vehicle, from the moment its
    re-probe went out at 5100 ms; three answers later the tick at 10400 ms
    still tears down. *)
Lemma sentFinalIgnitionCheck_sticky_witness :
  let st :=
    run decode_watched (startup (Some 1) ignition_check_only)
      (firstn 4 run_answered) in
  let answers :=
    [Response CheckIgnitionStatus (engine_speed_response 12 34) 5200;
     Loop (Some 1) 5300;
     Response CheckIgnitionStatus (vehicle_speed_response 50) 5350;
     Response CheckIgnitionStatus (engine_speed_response 12 34) 5400;
     Loop (Some 1) 9000] in
  sentFinalIgnitionCheck (run decode_watched st answers) = true
  /\ lastTick (IGNITION_STATUS_TIMER (run decode_watched st answers)) = 5400
  /\ tears_down (run decode_watched st answers)
       (loop (run decode_watched st answers) (Some 1) 10400) = true.
Proof.
  cbv zeta.
  destruct (sentFinalIgnitionCheck_sticky decode_watched
              [Response CheckIgnitionStatus (engine_speed_response 12 34) 5200;
               Loop (Some 1) 5300;
               Response CheckIgnitionStatus (vehicle_speed_response 50) 5350;
               Response CheckIgnitionStatus (engine_speed_response 12 34) 5400;
               Loop (Some 1) 9000]
              (run decode_watched (startup (Some 1) ignition_check_only)
                 (firstn 4 run_answered))
              eq_refl eq_refl eq_refl eq_refl) as (_ & _ & Hs & Hdown).
  split; [exact Hs|]. split; [reflexivity|].
  apply Hdown; reflexivity.
Defined.

(** X11.  Ignition detection end to end: when the machine has not yet seen
    the ignition on, a non-zero answer for either watched PID followed by a
    tick within the timer period sets [ignitionWasOn] and clears
    [sentFinalIgnitionCheck]; with recurring polling enabled and discovery
    not yet run the same tick issues the five discovery queries on its bus
    and latches [pidSupportQueried], and otherwise it leaves the manager as
    it was. *)
Theorem ignition_detected_by_answer :
  forall (decode : DiagnosticResponse -> Q) (st : State)
         (response : DiagnosticResponse) (answered : Z)
         (bus : option CanBus) (now : Z),
    initialized (manager st) = true ->
    ignitionWasOn st = false ->
    response_pid response = ENGINE_SPEED_PID
    \/ response_pid response = VEHICLE_SPEED_PID ->
    ~ (decode response == 0)%Q ->
    elapsed (tick (IGNITION_STATUS_TIMER st) answered) now = false ->
    let st' := loop (checkIgnitionStatus decode st response answered) bus now in
    ignitionWasOn st' = true
    /\ sentFinalIgnitionCheck st' = false
    /\ manager st' =
         (if recurringObd2Requests (configuration st)
             && negb (pidSupportQueried st)
          then with_requests (manager st)
                 (map (support_query bus) discovery_bases)
          else manager st)
    /\ pidSupportQueried st' =
         (recurringObd2Requests (configuration st) || pidSupportQueried st).
Proof.
  intros decode st response answered bus now Hi Hw Hp Hz He st'.
  subst st'. rewrite (checkIgnitionStatus_nonzero decode st response answered Hp Hz).
  rewrite loop_not_elapsed.
  - destruct (response_pid response =? ENGINE_SPEED_PID); simpl;
      rewrite Hw; simpl; rewrite ?orb_true_r;
      destruct (recurringObd2Requests (configuration st));
      destruct (pidSupportQueried st); simpl; repeat split.
  - now destruct (response_pid response =? ENGINE_SPEED_PID).
  - now destruct (response_pid response =? ENGINE_SPEED_PID).
Qed.

(** X11, a concrete instance: recurring polling on bus 1; the start-up probe
    is answered at 100 ms with a vehicle speed of 50 km/h and the tick comes
    at 4000 ms. *)
Lemma ignition_detected_by_answer_witness :
  let st := initialize (startup (Some 1) recurring_only) 0 in
  let st' :=
    loop (checkIgnitionStatus decode_watched st (vehicle_speed_response 50) 100)
      (Some 1) 4000 in
  ignitionWasOn st' = true
  /\ sentFinalIgnitionCheck st' = false
  /\ pidSupportQueried st' = true
  /\ List.length (requests (manager st')) = 7%nat.
Proof.
  cbv zeta.
  destruct (ignition_detected_by_answer decode_watched
              (initialize (startup (Some 1) recurring_only) 0)
              (vehicle_speed_response 50) 100 (Some 1) 4000
              eq_refl eq_refl (or_intror eq_refl)
              ltac:(vm_compute; discriminate) eq_refl)
    as (Hw & Hs & Hm & Hq).
  split; [exact Hw|]. split; [exact Hs|]. split; [exact Hq|].
  rewrite Hm. reflexivity.
Defined.

(** X12.  Outside ignition-check mode the final timeout is a resting state:
    after the tick that took the final-timeout branch, every further tick at
    that time or later returns the state unchanged, whatever its bus; only a
    response that resets the timer can move the machine again. *)
Theorem loop_final_timeout_stable :
  forall (st : State) (bus : option CanBus) (now : Z)
         (ticks : list (option CanBus * Z)),
    initialized (manager st) = true ->
    elapsed (IGNITION_STATUS_TIMER st) now = true ->
    sentFinalIgnitionCheck st = true ->
    powerManagement (configuration st) <> OBD2_IGNITION_CHECK ->
    Forall (fun tick => now <= snd tick) ticks ->
    fold_left (fun s tick => loop s (fst tick) (snd tick)) ticks
      (loop st bus now)
    = loop st bus now.
Proof.
  intros st bus now ticks Hi He Hs Hp Hticks.
  rewrite (loop_final_timeout st bus now Hi He Hs).
  apply PowerManagement_eqb_neq in Hp. rewrite Hp.
  induction Hticks as [|[b t] rest Ht _ IH]; [reflexivity|].
  cbn [fold_left fst snd]. simpl in Ht.
  rewrite loop_final_timeout.
  - simpl. rewrite Hp. exact IH.
  - exact Hi.
  - simpl. eapply elapsed_later; eauto.
  - reflexivity.
Qed.

(** X12, a concrete instance: the state of the witness of C10, ticked three
    more times. *)
Lemma loop_final_timeout_stable_witness :
  let st :=
    run decode_watched (startup (Some 1) recurring_only)
      [Initialize 0;
       Response CheckIgnitionStatus (engine_speed_response 12 34) 100;
       Loop (Some 1) 200;
       Loop (Some 1) 5100] in
  fold_left (fun s tick => loop s (fst tick) (snd tick))
    [(Some 1, 10100); (None, 10101); (Some 2, 99999)]
    (loop st (Some 1) 10100)
  = loop st (Some 1) 10100.
Proof.
  cbv zeta.
  apply (loop_final_timeout_stable
           (run decode_watched (startup (Some 1) recurring_only)
              [Initialize 0;
               Response CheckIgnitionStatus (engine_speed_response 12 34) 100;
               Loop (Some 1) 200;
               Loop (Some 1) 5100])
           (Some 1) 10100
           [(Some 1, 10100); (None, 10101); (Some 2, 99999)]
           eq_refl eq_refl eq_refl ltac:(vm_compute; discriminate)).
  repeat constructor; simpl; discriminate.
Defined.

(** X13.  The two-stage timeout on a silent bus.  In ignition-check mode with
    a bus configured, let a tick find the timer elapsed with
    [sentFinalIgnitionCheck] false, in a state where ticks are otherwise
    idle (ignition already recorded on, or neither flag set).  That tick
    re-probes and restarts the timer at its own time; from then on, with no
    response in between, every tick before a further full period has passed
    changes nothing, and the first tick at which it has passed tears the
    manager down and leaves no request. *)
Theorem loop_two_stage_on_silence :
  forall (st : State) (bus : option CanBus) (probed : Z),
    initialized (manager st) = true ->
    obd2Bus (manager st) <> None ->
    powerManagement (configuration st) = OBD2_IGNITION_CHECK ->
    sentFinalIgnitionCheck st = false ->
    elapsed (IGNITION_STATUS_TIMER st) probed = true ->
    ignitionWasOn st = true
    \/ (ENGINE_STARTED st = false /\ VEHICLE_IN_MOTION st = false) ->
    let st1 := loop st bus probed in
    IGNITION_STATUS_TIMER st1 = tick (IGNITION_STATUS_TIMER st) probed
    /\ initialized (manager st1) = true
    /\ (forall (bus' : option CanBus) (now : Z),
          elapsed (tick (IGNITION_STATUS_TIMER st) probed) now = false ->
          loop st1 bus' now = st1)
    /\ (forall (bus' : option CanBus) (now : Z),
          elapsed (tick (IGNITION_STATUS_TIMER st) probed) now = true ->
          tears_down st1 (loop st1 bus' now) = true
          /\ requests (manager (loop st1 bus' now)) = []).
Proof.
  intros st bus probed Hi Hbus Hp Hs He Hidle st1.
  assert (Hg : ignition_guard st = true).
  { apply ignition_guard_iff. split; [exact Hbus | now left]. }
  assert (Hst1 : st1 =
            set_flags
              (tick_timer
                 (set_manager st
                    (with_requests (manager st)
                       [ignition_probe (obd2Bus (manager st)) ENGINE_SPEED_PID
                          "engine_speed";
                        ignition_probe (obd2Bus (manager st)) VEHICLE_SPEED_PID
                          "vehicle_speed"]))
                 probed)
              (ignitionWasOn st) (pidSupportQueried st) true).
  { subst st1. rewrite (loop_first_timeout st bus probed Hi He Hs).
    now rewrite (requestIgnitionStatus_proceeds st probed Hg). }
  rewrite Hst1. split; [reflexivity|]. split; [exact Hi|]. split.
  - intros bus' now Hnot. rewrite loop_not_elapsed; [|exact Hi|exact Hnot].
    simpl. destruct Hidle as [Hw|[Hes Hvs]].
    + now rewrite Hw.
    + rewrite Hes, Hvs. now rewrite andb_false_r.
  - intros bus' now Hel. rewrite loop_final_timeout;
      [|exact Hi|exact Hel|reflexivity].
    simpl. apply PowerManagement_eqb_eq in Hp. rewrite Hp.
    unfold tears_down. simpl. rewrite Hi. split; reflexivity.
Qed.

(** X13, a concrete instance: the silent vehicle; the probe goes out again at
    5000 ms, the tick at 9999 ms does nothing and the tick at 10000 ms tears
    down. *)
Lemma loop_two_stage_on_silence_witness :
  let st := initialize (startup (Some 1) ignition_check_only) 0 in
  let st1 := loop st (Some 1) 5000 in
  lastTick (IGNITION_STATUS_TIMER st1) = 5000
  /\ loop st1 (Some 1) 9999 = st1
  /\ tears_down st1 (loop st1 (Some 1) 10000) = true.
Proof.
  cbv zeta.
  destruct (loop_two_stage_on_silence
              (initialize (startup (Some 1) ignition_check_only) 0)
              (Some 1) 5000 eq_refl ltac:(discriminate) eq_refl eq_refl
              eq_refl (or_intror (conj eq_refl eq_refl)))
    as (Ht & _ & Hidle & Hdown).
  split; [rewrite Ht; reflexivity|].
  split; [apply Hidle; reflexivity | apply Hdown; reflexivity].
Defined.

(** X14.  Discovery is not guarded against running again.  Outside
    ignition-check mode the final timeout clears [pidSupportQueried] but
    keeps every registered request; when the vehicle then answers a watched
    PID with a non-zero value and a tick follows within the timer period,
    the five discovery queries are issued once more, on top of all the
    requests the manager already held, whether or not discovery had run
    before. *)
Theorem rediscovery_after_final_timeout :
  forall (decode : DiagnosticResponse -> Q) (st : State)
         (bus : option CanBus) (now : Z) (response : DiagnosticResponse)
         (answered : Z) (bus' : option CanBus) (now' : Z),
    initialized (manager st) = true ->
    elapsed (IGNITION_STATUS_TIMER st) now = true ->
    sentFinalIgnitionCheck st = true ->
    powerManagement (configuration st) <> OBD2_IGNITION_CHECK ->
    recurringObd2Requests (configuration st) = true ->
    response_pid response = ENGINE_SPEED_PID
    \/ response_pid response = VEHICLE_SPEED_PID ->
    ~ (decode response == 0)%Q ->
    elapsed (tick (IGNITION_STATUS_TIMER st) answered) now' = false ->
    let st' :=
      loop (checkIgnitionStatus decode (loop st bus now) response answered)
        bus' now' in
    manager st' =
      with_requests (manager st) (map (support_query bus') discovery_bases)
    /\ pidSupportQueried st' = true
    /\ ignitionWasOn st' = true
    /\ sentFinalIgnitionCheck st' = false.
Proof.
  intros decode st bus now response answered bus' now'
         Hi He Hs Hp Hrec Hpid Hz Hnot st'.
  subst st'. rewrite (loop_final_timeout st bus now Hi He Hs).
  apply PowerManagement_eqb_neq in Hp. rewrite Hp.
  rewrite (checkIgnitionStatus_nonzero decode _ response answered Hpid Hz).
  rewrite loop_not_elapsed.
  - destruct (response_pid response =? ENGINE_SPEED_PID); simpl;
      rewrite Hrec; simpl; rewrite ?orb_true_r; repeat split.
  - now destruct (response_pid response =? ENGINE_SPEED_PID).
  - now destruct (response_pid response =? ENGINE_SPEED_PID).
Qed.

(** X14, a concrete instance: recurring polling on bus 1 with "engine_load"
    discovered; after the final timeout at 10100 ms the vehicle answers at
    60000 ms, and the tick at 60100 ms queries the five bases a second
    time. *)
Lemma rediscovery_after_final_timeout_witness :
  let st :=
    run decode_watched (startup (Some 1) recurring_only)
      [Initialize 0;
       Response CheckIgnitionStatus (engine_speed_response 12 34) 100;
       Loop (Some 1) 200;
       Response CheckSupportedPids
         {| response_pid := 0x00; payload := [0x08] |} 300;
       Loop (Some 1) 5100] in
  let st' :=
    loop (checkIgnitionStatus decode_watched (loop st (Some 1) 10100)
            (engine_speed_response 12 34) 60000)
      (Some 1) 60100 in
  pidSupportQueried st = true
  /\ List.length (requests (manager st)) = 10%nat
  /\ List.length (requests (manager st')) = 15%nat
  /\ List.length
       (filter (fun r => pid (request r) =? 0x20) (requests (manager st')))
     = 2%nat.
Proof.
  cbv zeta. split; [reflexivity|]. split; [reflexivity|].
  destruct (rediscovery_after_final_timeout decode_watched
              (run decode_watched (startup (Some 1) recurring_only)
                 [Initialize 0;
                  Response CheckIgnitionStatus (engine_speed_response 12 34) 100;
                  Loop (Some 1) 200;
                  Response CheckSupportedPids
                    {| response_pid := 0x00; payload := [0x08] |} 300;
                  Loop (Some 1) 5100])
              (Some 1) 10100 (engine_speed_response 12 34) 60000
              (Some 1) 60100
              eq_refl eq_refl eq_refl ltac:(vm_compute; discriminate) eq_refl
              (or_introl eq_refl) ltac:(vm_compute; discriminate) eq_refl)
    as (Hm & _).
  rewrite Hm. split; reflexivity.
Defined.

(** *** The two-stage timeout over a run *)

Lemma run_snoc (decode : DiagnosticResponse -> Q) (st : State)
    (events : list Event) (e : Event) :
  run decode st (events ++ [e]) = step decode (run decode st events) e.
Proof. unfold run. now rewrite fold_left_app. Qed.

Lemma run_frame (decode : DiagnosticResponse -> Q) (events : list Event) :
  forall st : State,
    configuration (run decode st events) = configuration st
    /\ obd2Bus (manager (run decode st events)) = obd2Bus (manager st)
    /\ frequency (IGNITION_STATUS_TIMER (run decode st events))
       = frequency (IGNITION_STATUS_TIMER st).
Proof.
  unfold run. induction events as [|e rest IH]; intros st.
  - repeat split.
  - cbn [fold_left].
    destruct (IH (step decode st e)) as (Hc & Hb & Hf).
    destruct (step_frame decode st e) as (Hc' & Hb' & Hf').
    rewrite Hc, Hb, Hf. auto.
Qed.

Lemma ordered_from_snoc (events : list Event) :
  forall (t : Z) (e : Event),
    ordered_from t (events ++ [e]) = true ->
    ordered_from t events = true
    /\ t <= event_time e
    /\ (forall x, In x events -> event_time x <= event_time e).
Proof.
  induction events as [|a rest IH]; intros t e H.
  - cbn [app ordered_from] in H. apply andb_true_iff in H.
    destruct H as [H _]. apply Z.leb_le in H.
    split; [reflexivity|]. split; [exact H | intros x []].
  - cbn [app ordered_from] in H. apply andb_true_iff in H.
    destruct H as [Ha Hrest]. apply Z.leb_le in Ha.
    destruct (IH _ _ Hrest) as (Ho & Hle & Hall).
    split; [|split].
    + cbn [ordered_from]. apply andb_true_iff. split; [|exact Ho].
      now apply Z.leb_le.
    + lia.
    + intros x [Hx|Hx]; [subst x; exact Hle | now apply Hall].
Qed.

Lemma times_ordered_snoc (events : list Event) (e : Event) :
  times_ordered (events ++ [e]) = true ->
  times_ordered events = true
  /\ (forall x, In x events -> event_time x <= event_time e).
Proof.
  destruct events as [|a rest]; intros H.
  - split; [reflexivity | intros x []].
  - cbn [app times_ordered] in H.
    destruct (ordered_from_snoc rest _ _ H) as (Ho & Hle & Hall).
    split; [exact Ho|].
    intros x [Hx|Hx]; [subst x; exact Hle | now apply Hall].
Qed.

Lemma app_snoc_split {A : Type} (l : list A) (a : A) (l1 l2 : list A) :
  l ++ [a] = l1 ++ l2 -> (exists m, l = l1 ++ m) \/ l1 = l ++ [a].
Proof.
  destruct l2 as [|z m] using rev_ind; intros H.
  - right. now rewrite app_nil_r in H.
  - left. rewrite app_assoc in H. apply app_inj_tail in H.
    destruct H as [H _]. now exists m.
Qed.

Lemma step_initialized_before (decode : DiagnosticResponse -> Q) (st : State)
    (e : Event) :
  initialized (manager (step decode st e)) = true ->
  initialized (manager st) = true.
Proof.
  intros H. destruct (initialized (manager st)) eqn:Hi; [reflexivity|].
  destruct (step_uninitialized decode st e Hi) as [H' _]. congruence.
Qed.

Lemma step_sets_final_check (decode : DiagnosticResponse -> Q) (st : State)
    (e : Event) :
  sentFinalIgnitionCheck st = false ->
  sentFinalIgnitionCheck (step decode st e) = true ->
  exists (bus : option CanBus) (now : Z),
    e = Loop bus now /\ first_timeout st now = true.
Proof.
  intros Hs H. destruct e as [now|bus now|[|] response now]; cbn [step] in H.
  - unfold initialize in H.
    destruct (requestIgnitionStatus_frame st now)
      as (_ & _ & _ & _ & Hf & _). congruence.
  - exists bus, now. split; [reflexivity|]. unfold first_timeout.
    destruct (initialized (manager st)) eqn:Hi.
    + destruct (elapsed (IGNITION_STATUS_TIMER st) now) eqn:He.
      * now rewrite Hs.
      * rewrite (loop_not_elapsed st bus now Hi He) in H.
        destruct (negb (ignitionWasOn st)
                  && (ENGINE_STARTED st || VEHICLE_IN_MOTION st));
          [|congruence].
        destruct (recurringObd2Requests (configuration st)
                  && negb (pidSupportQueried st)); discriminate H.
    + rewrite (loop_uninitialized st bus now Hi) in H. congruence.
  - destruct (checkIgnitionStatus_frame decode st response now)
      as (_ & _ & Hf & _). congruence.
  - rewrite checkSupportedPids_appends in H. simpl in H. congruence.
Qed.

Lemma step_lastTick (decode : DiagnosticResponse -> Q) (st : State)
    (e : Event) :
  lastTick (IGNITION_STATUS_TIMER (step decode st e))
  = lastTick (IGNITION_STATUS_TIMER st)
  \/ lastTick (IGNITION_STATUS_TIMER (step decode st e)) = event_time e.
Proof.
  assert (Hprobe : forall now,
             lastTick (IGNITION_STATUS_TIMER (requestIgnitionStatus st now))
             = lastTick (IGNITION_STATUS_TIMER st)
             \/ lastTick (IGNITION_STATUS_TIMER (requestIgnitionStatus st now))
                = now).
  { intros now. destruct (ignition_guard st) eqn:Hg.
    - right. now rewrite requestIgnitionStatus_proceeds.
    - left. now rewrite requestIgnitionStatus_skips. }
  destruct e as [now|bus now|[|] response now]; cbn [step event_time].
  - apply Hprobe.
  - destruct (loop_cases st bus now)
      as [H|[H|[H|[[_ H]|[H|H]]]]]; rewrite H; simpl; auto.
  - unfold checkIgnitionStatus.
    destruct (response_pid response =? ENGINE_SPEED_PID);
      [|destruct (response_pid response =? VEHICLE_SPEED_PID)];
      try destruct (negb (Qeq_bool (decode response) 0)); simpl; auto.
  - rewrite checkSupportedPids_appends. simpl. auto.
Qed.

Lemma first_timeout_reprobes (st : State) (bus : option CanBus) (now : Z) :
  first_timeout st now = true ->
  obd2Bus (manager st) <> None ->
  powerManagement (configuration st) = OBD2_IGNITION_CHECK ->
  sentFinalIgnitionCheck (loop st bus now) = true
  /\ lastTick (IGNITION_STATUS_TIMER (loop st bus now)) = now.
Proof.
  unfold first_timeout. intros H Hbus Hp.
  apply andb_true_iff in H. destruct H as [H Hs].
  apply andb_true_iff in H. destruct H as [Hi He].
  apply negb_true_iff in Hs.
  rewrite (loop_first_timeout st bus now Hi He Hs).
  rewrite requestIgnitionStatus_proceeds.
  - split; reflexivity.
  - apply ignition_guard_iff. split; [exact Hbus | now left].
Qed.

(** Where a set [sentFinalIgnitionCheck] comes from: an earlier tick of the
    run that found the timer elapsed and re-probed, after which every entry
    left the flag set and no timer reset went back before that tick. *)
Lemma final_check_origin (decode : DiagnosticResponse -> Q) (st : State) :
  sentFinalIgnitionCheck st = false ->
  obd2Bus (manager st) <> None ->
  powerManagement (configuration st) = OBD2_IGNITION_CHECK ->
  forall events : list Event,
    times_ordered events = true ->
    sentFinalIgnitionCheck (run decode st events) = true ->
    initialized (manager (run decode st events)) = true ->
    exists (pre : list Event) (bus : option CanBus) (probed : Z)
           (mid : list Event),
      events = pre ++ Loop bus probed :: mid
      /\ first_timeout (run decode st pre) probed = true
      /\ lastTick (IGNITION_STATUS_TIMER
                     (loop (run decode st pre) bus probed)) = probed
      /\ (forall mid1 mid2 : list Event,
            mid = mid1 ++ mid2 ->
            sentFinalIgnitionCheck
              (run decode st (pre ++ Loop bus probed :: mid1)) = true)
      /\ probed <= lastTick (IGNITION_STATUS_TIMER (run decode st events)).
Proof.
  intros Hs0 Hbus Hp events.
  induction events as [|e ev IH] using rev_ind; intros Hord Hs Hi.
  - cbn in Hs. congruence.
  - rewrite run_snoc in Hs, Hi.
    destruct (times_ordered_snoc ev e Hord) as [Hord' Hle].
    pose proof (step_initialized_before decode _ e Hi) as Hi'.
    destruct (sentFinalIgnitionCheck (run decode st ev)) eqn:Hs'.
    + destruct (IH Hord' eq_refl Hi')
        as (pre & bus & probed & mid & Hev & Hft & Htick & Hmid & Hlast).
      exists pre, bus, probed, (mid ++ [e]).
      split; [rewrite Hev, <- app_assoc; reflexivity|].
      split; [exact Hft|]. split; [exact Htick|]. split.
      * intros mid1 mid2 Hsplit.
        destruct (app_snoc_split mid e mid1 mid2 Hsplit) as [[m Hm]|Hm].
        -- now apply (Hmid mid1 m).
        -- rewrite Hm.
           replace (pre ++ Loop bus probed :: mid ++ [e])
             with ((pre ++ Loop bus probed :: mid) ++ [e])
             by (now rewrite <- app_assoc).
           rewrite <- Hev, run_snoc. exact Hs.
      * rewrite run_snoc.
        destruct (step_lastTick decode (run decode st ev) e) as [H|H];
          rewrite H; [exact Hlast|].
        apply (Hle (Loop bus probed)). rewrite Hev.
        apply in_or_app. right. now left.
    + destruct (step_sets_final_check decode _ e Hs' Hs)
        as (bus & now & He & Hft).
      subst e. cbn [step] in Hs, Hi.
      destruct (run_frame decode ev st) as (Hc & Hb & _).
      destruct (first_timeout_reprobes (run decode st ev) bus now Hft)
        as [_ Htick]; [now rewrite Hb | now rewrite Hc |].
      exists ev, bus, now, [].
      split; [reflexivity|]. split; [exact Hft|]. split; [exact Htick|].
      split.
      * intros mid1 mid2 Hsplit. symmetry in Hsplit.
        apply app_eq_nil in Hsplit. destruct Hsplit as [Hm _]. subst mid1.
        rewrite run_snoc. exact Hs.
      * rewrite run_snoc. cbn [step]. rewrite Htick. lia.
Qed.

(** C1 (as amended).  The machine tears the manager down in two stages.
    Per tick: a tick of the initialized machine that finds the timer elapsed
    and [sentFinalIgnitionCheck] false only calls the guarded ignition probe
    (two requests and a timer reset when its condition holds, nothing
    otherwise) and sets the flag, leaving the manager initialized; a tick
    tears down only when it finds the timer elapsed, the flag already true
    and the mode ignition-check, and then always; a tick that finds the
    timer running and newly records the ignition as on clears the flag.
    Over a run: with a bus configured, in any run at non-decreasing times
    that starts with the flag false, a tick that tears down is preceded by a
    tick that found the timer elapsed with the flag false and whose re-probe
    restarted the timer; every entry between the two left the flag set; and
    a further full period has passed since that re-probe.  The teardown is
    never on the first elapsed period. *)
Theorem loop_timeout_stages :
  forall (decode : DiagnosticResponse -> Q) (st : State),
    (forall (bus : option CanBus) (now : Z),
        initialized (manager st) = true ->
        (elapsed (IGNITION_STATUS_TIMER st) now = true ->
         sentFinalIgnitionCheck st = false ->
           loop st bus now =
             set_flags (requestIgnitionStatus st now)
               (ignitionWasOn st) (pidSupportQueried st) true
           /\ sentFinalIgnitionCheck (loop st bus now) = true
           /\ initialized (manager (loop st bus now)) = true
           /\ (probe_condition st ->
                 lastTick (IGNITION_STATUS_TIMER (loop st bus now)) = now
                 /\ manager (loop st bus now) =
                      with_requests (manager st)
                        [ignition_probe (obd2Bus (manager st))
                           ENGINE_SPEED_PID "engine_speed";
                         ignition_probe (obd2Bus (manager st))
                           VEHICLE_SPEED_PID "vehicle_speed"])
           /\ (~ probe_condition st ->
                 IGNITION_STATUS_TIMER (loop st bus now)
                 = IGNITION_STATUS_TIMER st
                 /\ manager (loop st bus now) = manager st))
        /\ (tears_down st (loop st bus now) = true ->
              elapsed (IGNITION_STATUS_TIMER st) now = true
              /\ sentFinalIgnitionCheck st = true
              /\ powerManagement (configuration st) = OBD2_IGNITION_CHECK)
        /\ (elapsed (IGNITION_STATUS_TIMER st) now = true ->
            sentFinalIgnitionCheck st = true ->
            powerManagement (configuration st) = OBD2_IGNITION_CHECK ->
              tears_down st (loop st bus now) = true
              /\ manager (loop st bus now) = reset (manager st))
        /\ (elapsed (IGNITION_STATUS_TIMER st) now = false ->
            ignitionWasOn st = false ->
            ENGINE_STARTED st || VEHICLE_IN_MOTION st = true ->
              sentFinalIgnitionCheck (loop st bus now) = false
              /\ ignitionWasOn (loop st bus now) = true
              /\ initialized (manager (loop st bus now)) = true))
    /\ (sentFinalIgnitionCheck st = false ->
        obd2Bus (manager st) <> None ->
        forall (events : list Event) (bus : option CanBus) (now : Z),
          times_ordered (events ++ [Loop bus now]) = true ->
          tears_down (run decode st events)
            (loop (run decode st events) bus now) = true ->
          exists (pre : list Event) (bus1 : option CanBus) (probed : Z)
                 (mid : list Event),
            events = pre ++ Loop bus1 probed :: mid
            /\ first_timeout (run decode st pre) probed = true
            /\ tears_down (run decode st pre)
                 (loop (run decode st pre) bus1 probed) = false
            /\ lastTick (IGNITION_STATUS_TIMER
                           (loop (run decode st pre) bus1 probed)) = probed
            /\ (forall mid1 mid2 : list Event,
                  mid = mid1 ++ mid2 ->
                  sentFinalIgnitionCheck
                    (run decode st (pre ++ Loop bus1 probed :: mid1)) = true)
            /\ elapsed (tick (IGNITION_STATUS_TIMER st) probed) now = true).
Proof.
  intros decode st. split.
  - intros bus now Hi.
    destruct (loop_timeout_tick st bus now Hi) as (H1 & H2 & H3).
    split; [exact H1|]. split; [exact H2|]. split; [exact H3|].
    intros He Hw Hf. rewrite (loop_not_elapsed st bus now Hi He).
    rewrite Hw, Hf. simpl.
    destruct (recurringObd2Requests (configuration st)
              && negb (pidSupportQueried st)); simpl; auto.
  - intros Hs0 Hbus events bus now Hord Hdown.
    destruct (times_ordered_snoc events (Loop bus now) Hord) as [Hord' _].
    assert (Hi : initialized (manager (run decode st events)) = true).
    { unfold tears_down in Hdown. apply andb_true_iff in Hdown.
      now destruct Hdown. }
    destruct (loop_timeout_tick (run decode st events) bus now Hi)
      as (_ & Honly & _).
    destruct (Honly Hdown) as (He & Hs & Hp).
    destruct (run_frame decode events st) as (Hc & _ & Hf).
    rewrite Hc in Hp.
    destruct (final_check_origin decode st Hs0 Hbus Hp events Hord' Hs Hi)
      as (pre & bus1 & probed & mid & Hev & Hft & Htick & Hmid & Hlast).
    exists pre, bus1, probed, mid.
    split; [exact Hev|]. split; [exact Hft|]. split; [|split; [exact Htick|]].
    + assert (Hft' := Hft). unfold first_timeout in Hft'.
      apply andb_true_iff in Hft'. destruct Hft' as [Hft' Hns].
      apply andb_true_iff in Hft'. destruct Hft' as [Hi1 He1].
      apply negb_true_iff in Hns.
      destruct (tears_down (run decode st pre)
                  (loop (run decode st pre) bus1 probed)) eqn:Ht;
        [|reflexivity].
      destruct (loop_timeout_tick (run decode st pre) bus1 probed Hi1)
        as (_ & Honly1 & _).
      destruct (Honly1 Ht) as (_ & Hcontra & _). congruence.
    + split; [exact Hmid|].
      unfold elapsed in He |- *. unfold period_ms in *.
      cbn [tick frequency lastTick]. rewrite Hf in He.
      apply Qle_bool_iff. apply Qle_bool_iff in He.
      eapply Qle_trans; [exact He|].
      rewrite <- Zle_Qle. lia.
Qed.

(** C1, a concrete instance: the silent vehicle on bus 1.  The tick at
    10000 ms tears down, and the tick the theorem finds before it is the
    re-probe at 5000 ms. *)
Lemma loop_timeout_stages_witness :
  let st := startup (Some 1) ignition_check_only in
  times_ordered (run_silent ++ [Loop (Some 1) 10000]) = true
  /\ tears_down (run decode_watched st run_silent)
       (loop (run decode_watched st run_silent) (Some 1) 10000) = true
  /\ exists (pre : list Event) (bus1 : option CanBus) (probed : Z)
            (mid : list Event),
       run_silent = pre ++ Loop bus1 probed :: mid
       /\ first_timeout (run decode_watched st pre) probed = true
       /\ elapsed (tick (IGNITION_STATUS_TIMER st) probed) 10000 = true.
Proof.
  cbv zeta. split; [reflexivity|]. split; [reflexivity|].
  destruct (proj2 (loop_timeout_stages decode_watched
                     (startup (Some 1) ignition_check_only))
              eq_refl ltac:(discriminate) run_silent (Some 1) 10000
              eq_refl eq_refl)
    as (pre & bus1 & probed & mid & Hev & Hft & _ & _ & _ & Hel).
  exists pre, bus1, probed, mid.
  split; [exact Hev|]. split; [exact Hft | exact Hel].
Defined.
